(** * nestjs-mongo-poc: configuration validation, request gate and products CRUD

    A shallow embedding of the TypeScript sources:
    - [src/config/env-validation.ts] and the top of [src/app.module.ts]
      (environment file resolution and validation),
    - [src/main.ts] ([bootstrap]), [LoggerMiddleware], [AuthMiddleware],
    - [src/products/products.controller.ts], [products.service.ts] and the
      two product DTOs.

    JavaScript values are an inductive type, plain objects used as
    dictionaries are [gmap string _], effects (console output, persistence
    calls, the document store) are threaded through an explicit [World]. *)

From Stdlib Require Import QArith Ascii String.
From stdpp Require Import gmap strings list fin_maps pretty.

Local Open Scope string_scope.
#[local] Set Warnings "-register-all".

(* ================================================================== *)
(** ** JavaScript values *)
(* ================================================================== *)

Module Js.

(** Finite JS numbers are modelled as rationals; NaN and the infinities
    cannot come out of a JSON body or an environment file. *)
Inductive JsValue : Type :=
| JUndefined
| JNull
| JBool (b : bool)
| JNumber (q : Q)
| JString (s : string)
| JArray (l : list JsValue)
| JObject (l : list (string * JsValue)).

Inductive JsType := TUndefined | TObject | TBoolean | TNumber | TString.

(** [typeof v] *)
Definition typeof (v : JsValue) : JsType :=
  match v with
  | JUndefined => TUndefined
  | JNull | JArray _ | JObject _ => TObject
  | JBool _ => TBoolean
  | JNumber _ => TNumber
  | JString _ => TString
  end.

(** [v === null || v === undefined] *)
Definition nullish (v : JsValue) : bool :=
  match v with JUndefined | JNull => true | _ => false end.

(** Truthiness of a string: only the empty string is falsy. *)
Definition truthy_string (s : string) : bool :=
  match s with EmptyString => false | String _ _ => true end.

(** [!x] for [x : string | undefined]. *)
Definition falsy (x : option string) : bool :=
  match x with None => true | Some s => negb (truthy_string s) end.

(** The double quote character, for messages that embed one. *)
Definition dquote : string := String (ascii_of_nat 34) EmptyString.
Definition newline : string := String (ascii_of_nat 10) EmptyString.

(** [arr.join(sep)] on an array of strings. *)
Fixpoint join (sep : string) (l : list string) : string :=
  match l with
  | [] => ""
  | [x] => x
  | x :: r => x +:+ sep +:+ join sep r
  end.

(** Decimal digits of the fractional part [r / d], at most [fuel] of them. *)
Fixpoint frac_digits (fuel : nat) (r d : Z) : string :=
  match fuel with
  | O => ""
  | S f =>
      if (r =? 0)%Z then ""
      else pretty ((r * 10) / d)%Z +:+ frac_digits f ((r * 10) mod d)%Z d
  end.

(** [String(n)] for a number: plain decimal notation (the exponent forms of
    very large or very small doubles are outside the model). *)
Definition Number_toString (q : Q) : string :=
  let n := Qnum q in
  let d := Zpos (Qden q) in
  let a := Z.abs n in
  (if (n <? 0)%Z then "-" else "")
    +:+ pretty (a / d)%Z
    +:+ (if (a mod d =? 0)%Z then "" else "." +:+ frac_digits 17 (a mod d)%Z d).

(** [String(v)] *)
Fixpoint ToString (v : JsValue) : string :=
  match v with
  | JUndefined => "undefined"
  | JNull => "null"
  | JBool true => "true"
  | JBool false => "false"
  | JNumber q => Number_toString q
  | JString s => s
  | JArray l =>
      join ","
        ((fix elems (l : list JsValue) : list string :=
            match l with
            | [] => []
            | x :: r =>
                (match x with
                 | JUndefined | JNull => ""
                 | _ => ToString x
                 end) :: elems r
            end) l)
  | JObject _ => "[object Object]"
  end.

(** A template literal hole [${x}] filled with [x : string | undefined]. *)
Definition template (x : option string) : string :=
  match x with None => "undefined" | Some s => s end.

(** A thrown [Error] carries its message. *)
Inductive Exn := Error (message : string).

Definition message (e : Exn) : string := let 'Error m := e in m.

End Js.
Import Js.

(* ================================================================== *)
(** ** class-validator: decorators and [validateSync] *)
(* ================================================================== *)

Module ClassValidator.

Inductive Decorator :=
| IsString
| IsNotEmpty
| IsNumber
| IsOptional
| Min (bound : Q).

(** The decorators of one class, property by property, in source order. *)
Record ClassMetadata := {
  class_name : string;
  properties : list (string * list Decorator)
}.

Record ValidationError := {
  target : string;
  property : string;
  value : JsValue;
  constraints : list (string * string)   (* constraint name, message *)
}.

(** The name under which a failed constraint is reported; [IsOptional] is
    a conditional, not a constraint. *)
Definition constraint_name (d : Decorator) : option string :=
  match d with
  | IsString => Some "isString"
  | IsNotEmpty => Some "isNotEmpty"
  | IsNumber => Some "isNumber"
  | IsOptional => None
  | Min _ => Some "min"
  end.

(** [isString], [isNotEmpty], [isNumber] (NaN and infinities refused by
    default), [min]. *)
Definition holds (d : Decorator) (v : JsValue) : bool :=
  match d with
  | IsString => match v with JString _ => true | _ => false end
  | IsNotEmpty =>
      match v with
      | JString EmptyString | JNull | JUndefined => false
      | _ => true
      end
  | IsNumber => match v with JNumber _ => true | _ => false end
  | IsOptional => true
  | Min b => match v with JNumber q => Qle_bool b q | _ => false end
  end.

Definition is_optional (ds : list Decorator) : bool :=
  existsb (fun d => match d with IsOptional => true | _ => false end) ds.

(** The default message of a failed constraint, as the validation pipe
    reports it. *)
Definition default_message (p : string) (d : Decorator) : string :=
  match d with
  | IsString => p +:+ " must be a string"
  | IsNotEmpty => p +:+ " should not be empty"
  | IsNumber => p +:+ " must be a number conforming to the specified constraints"
  | IsOptional => ""
  | Min b => p +:+ " must not be less than " +:+ Number_toString b
  end.

(** The constraints of [ds] that [v] fails, each with its message: every
    one of them, not only the first. *)
Definition failed_constraints (p : string) (ds : list Decorator) (v : JsValue)
    : list (string * string) :=
  omap (fun d => if holds d v then None
                 else (fun n => (n, default_message p d)) <$> constraint_name d) ds.

(** Validation of one property: a missing property reads as [undefined];
    an [@IsOptional()] property holding null or undefined is skipped. *)
Definition validate_property (cls : string) (obj : gmap string JsValue)
    (p : string * list Decorator) : option ValidationError :=
  let v := default JUndefined (obj !! p.1) in
  if is_optional p.2 && nullish v then None
  else
    match failed_constraints p.1 p.2 v with
    | [] => None
    | cs => Some {| target := cls; property := p.1; value := v; constraints := cs |}
    end.

(** [validateSync(obj, { skipMissingProperties: false })]: one error per
    property that fails, over all the properties of the class. *)
Definition validateSync (cls : ClassMetadata) (obj : gmap string JsValue)
    : list ValidationError :=
  omap (validate_property (class_name cls) obj) (properties cls).

(** [ValidationError.prototype.toString()] *)
Definition ValidationError_toString (e : ValidationError) : string :=
  "An instance of " +:+ target e +:+ " has failed the validation:" +:+ newline
    +:+ " - property " +:+ property e
    +:+ " has failed the following constraints: "
    +:+ join ", " (map fst (constraints e)) +:+ " " +:+ newline.

(** [`${errors}`] for an array of validation errors. *)
Definition errors_toString (errors : list ValidationError) : string :=
  join "," (map ValidationError_toString errors).

End ClassValidator.
Import ClassValidator.

(* ================================================================== *)
(** ** class-transformer: [plainToInstance] *)
(* ================================================================== *)

Module ClassTransformer.

(** Conversion of a property whose reflected design type is [String],
    under [enableImplicitConversion: true]: arrays are converted element
    by element and stay arrays, null and undefined are kept, every other
    value [v] becomes [String(v)]. *)
Fixpoint transform_String (v : JsValue) : JsValue :=
  match v with
  | JArray l => JArray (map transform_String l)
  | JUndefined => JUndefined
  | JNull => JNull
  | _ => JString (ToString v)
  end.

(** [plainToInstance(cls, plain, { enableImplicitConversion })]: every key
    of the plain object is copied; the keys listed in [string_props] (the
    decorated properties declared [: string]) are converted when the option
    is set. *)
Definition plainToInstance (string_props : list string)
    (enableImplicitConversion : bool) (plain : gmap string JsValue)
    : gmap string JsValue :=
  map_imap
    (fun k v =>
       Some (if enableImplicitConversion && bool_decide (k ∈ string_props)
             then transform_String v else v))
    plain.

End ClassTransformer.
Import ClassTransformer.

(* ================================================================== *)
(** ** src/config/env-validation.ts *)
(* ================================================================== *)

Module EnvValidation.

(** [fs.existsSync] over the set of paths that exist. *)
Definition existsSync (fs : gset string) (path : string) : bool :=
  bool_decide (path ∈ fs).

Definition not_found_message (envFilePath : string) : string :=
  "❌ Environment file " +:+ dquote +:+ envFilePath +:+ dquote +:+ " not found!".

(** [validateEnvFile(envFilePath)] *)
Definition validateEnvFile (fs : gset string) (envFilePath : string) : Exn + unit :=
  if negb (existsSync fs envFilePath)
  then inl (Error (not_found_message envFilePath))
  else inr tt.

(** [class EnvironmentVariables { @IsString() MONGODB_URI: string; }] *)
Definition EnvironmentVariables : ClassMetadata :=
  {| class_name := "EnvironmentVariables";
     properties := [("MONGODB_URI", [IsString])] |}.

(** The decorated properties of [EnvironmentVariables] declared [: string]. *)
Definition EnvironmentVariables_strings : list string := ["MONGODB_URI"].

Definition invalid_message (errors : list ValidationError) : string :=
  "❌ Invalid environment configuration: " +:+ errors_toString errors.

(** [validateEnvironmentVariables(config)] *)
Definition validateEnvironmentVariables (config : gmap string JsValue)
    : Exn + gmap string JsValue :=
  let validatedConfig :=
    plainToInstance EnvironmentVariables_strings true config in
  let errors := validateSync EnvironmentVariables validatedConfig in
  if (0 <? length errors)%nat
  then inl (Error (invalid_message errors))
  else inr validatedConfig.

End EnvValidation.
Import EnvValidation.

(* ================================================================== *)
(** ** bson [ObjectId] (as re-exported by [mongoose.Types.ObjectId]) *)
(* ================================================================== *)

Module ObjectId.

(** Strings hold the UTF-8 bytes of the JS string. An ObjectId is its 12
    raw bytes. *)

Fixpoint string_forall (p : ascii -> bool) (s : string) : bool :=
  match s with
  | EmptyString => true
  | String c r => p c && string_forall p r
  end.

(** The value of a hexadecimal digit, [None] for any other character. *)
Definition hex_val (c : ascii) : option N :=
  let n := N_of_ascii c in
  if (48 <=? n)%N && (n <=? 57)%N then Some (n - 48)%N
  else if (97 <=? n)%N && (n <=? 102)%N then Some (n - 87)%N
  else if (65 <=? n)%N && (n <=? 70)%N then Some (n - 55)%N
  else None.

Definition is_hex (c : ascii) : bool :=
  match hex_val c with Some _ => true | None => false end.

(** [/^[0-9a-fA-F]{24}$/.test(s)] *)
Definition checkForHexRegExp (s : string) : bool :=
  (String.length s =? 24)%nat && string_forall is_hex s.

Definition hex_digit (n : N) : ascii :=
  if (n <? 10)%N then ascii_of_N (48 + n) else ascii_of_N (87 + n).

(** [oid.toHexString()] *)
Fixpoint toHexString (bytes : string) : string :=
  match bytes with
  | EmptyString => EmptyString
  | String b r =>
      let n := N_of_ascii b in
      String (hex_digit (n / 16)%N) (String (hex_digit (n mod 16)%N) (toHexString r))
  end.

(** [ByteUtils.fromHex]: two digits per byte. *)
Fixpoint fromHex (s : string) : option string :=
  match s with
  | EmptyString => Some EmptyString
  | String _ EmptyString => None
  | String h (String l r) =>
      match hex_val h, hex_val l, fromHex r with
      | Some a, Some b, Some bytes => Some (String (ascii_of_N (16 * a + b)) bytes)
      | _, _, _ => None
      end
  end.

(** [new ObjectId(id)] for a string argument: 24 hexadecimal digits, or
    the constructor throws ([None]). This is bson 6, which mongoose 8
    loads; older releases also took any 12-character string. *)
Definition cast (id : string) : option string :=
  if checkForHexRegExp id then fromHex id else None.

(** [ObjectId.isValid(id)] for a string: whether the constructor accepts
    it. *)
Definition isValid (id : string) : bool :=
  match cast id with Some _ => true | None => false end.

End ObjectId.

(* ================================================================== *)
(** ** The world a request runs in *)
(* ================================================================== *)

Inductive ModelCall :=
| Save (oid : string)
| Find
| FindById (id : string)
| FindByIdAndUpdate (id : string)
| FindByIdAndDelete (id : string).

Inductive Event :=
| ConsoleLog (msg : string)
| Persistence (call : ModelCall).

(** The products collection maps an ObjectId to the stored fields.
    [entropy] is the sequence of identifiers that [new ObjectId()] yields
    (timestamp, process randomness and counter are outside the program);
    [drawn] counts how many were taken. *)
Record World := {
  store : gmap string (gmap string JsValue);
  trace : list Event;
  entropy : nat -> string;
  drawn : nat
}.

Definition emit (e : Event) (w : World) : World :=
  {| store := store w; trace := trace w ++ [e];
     entropy := entropy w; drawn := drawn w |}.

Definition set_store (s : gmap string (gmap string JsValue)) (w : World) : World :=
  {| store := s; trace := trace w; entropy := entropy w; drawn := drawn w |}.

(** The identifier the next created document draws. *)
Definition next_oid (w : World) : string := entropy w (drawn w).

(** What a handler can throw. *)
Inductive Thrown :=
| HttpException (response : string) (status : nat)
| BadRequestException (messages : list string)
| MongooseError (msg : string).

(** Request-time computations: state passing with exceptions. *)
Definition M (A : Type) : Type := World -> World * (Thrown + A).

Definition throw {A} (t : Thrown) : M A := fun w => (w, inl t).
Definition call (c : ModelCall) : M unit := fun w => (emit (Persistence c) w, inr tt).
Definition log (msg : string) : M unit := fun w => (emit (ConsoleLog msg) w, inr tt).
Definition get_store : M (gmap string (gmap string JsValue)) := fun w => (w, inr (store w)).
Definition put_store (s : gmap string (gmap string JsValue)) : M unit :=
  fun w => (set_store s w, inr tt).
Definition new_ObjectId : M string :=
  fun w => ({| store := store w; trace := trace w;
               entropy := entropy w; drawn := S (drawn w) |}, inr (next_oid w)).

#[global] Instance M_ret : MRet M := fun A a w => (w, inr a).
#[global] Instance M_bind : MBind M := fun A B k m w =>
  match m w with
  | (w', inr a) => k a w'
  | (w', inl t) => (w', inl t)
  end.

Definition HttpStatus_BAD_REQUEST : nat := 400.
Definition HttpStatus_NOT_FOUND : nat := 404.

(* ================================================================== *)
(** ** Products: schema, DTOs, service, controller *)
(* ================================================================== *)

Module Products.

Record Product := {
  _id : string;
  fields : gmap string JsValue
}.

(** Modelled from the spec: the Product schema ([src/schemas/Product.schema]
    is not among the sources). Its paths are the attributes of the Product
    Record: name, description, price, category. Keys outside the schema are
    dropped when a document is built or updated. *)
Definition Product_paths : list string := ["name"; "description"; "price"; "category"].

(** The part of a DTO that the schema keeps. *)
Definition in_schema (dto : gmap string JsValue) : gmap string JsValue :=
  filter (fun kv : string * JsValue => kv.1 ∈ Product_paths) dto.

(** [dto/CreateProduct.dto.ts], as the source file has it. *)
Definition CreateProductDto : ClassMetadata :=
  {| class_name := "CreateProductDto";
     properties :=
       [("name", [IsNotEmpty; IsString]);
        ("description", [IsString; IsOptional]);
        ("price", [IsNotEmpty; IsNumber])] |}.

(** The same DTO as the project's README documents it. *)
Definition CreateProductDto_README : ClassMetadata :=
  {| class_name := "CreateProductDto";
     properties :=
       [("name", [IsNotEmpty; IsString]);
        ("description", [IsString; IsOptional]);
        ("price", [IsNotEmpty; IsNumber; Min 0]);
        ("category", [IsString; IsOptional])] |}.

(** [dto/UpdateProduct.dto.ts] *)
Definition UpdateProductDto : ClassMetadata :=
  {| class_name := "UpdateProductDto";
     properties :=
       [("name", [IsOptional; IsString]);
        ("description", [IsOptional; IsString]);
        ("price", [IsOptional; IsNumber; Min 0]);
        ("category", [IsOptional; IsString]);
        ("imageUrl", [IsOptional; IsString])] |}.

(** [new ValidationPipe()] on a body of class [cls]: no implicit
    conversion, no whitelist; the handler receives the body as sent. *)
Definition ValidationPipe (cls : ClassMetadata) (body : gmap string JsValue)
    : M (gmap string JsValue) :=
  let entity := plainToInstance [] false body in
  let errors := validateSync cls entity in
  if (0 <? length errors)%nat
  then throw (BadRequestException (concat (map (fun e => map snd (constraints e)) errors)))
  else mret body.

(** *** products.service.ts *)
Module Service.

(** [new this.productModel(dto)] draws an identifier and keeps the schema
    paths of the DTO; [save()] inserts the document. *)
Definition createProduct (createProductDto : gmap string JsValue) : M Product :=
  oid ← new_ObjectId ;
  let newProduct := {| _id := oid; fields := in_schema createProductDto |} in
  call (Save oid) ;;
  s ← get_store ;
  match s !! oid with
  | Some _ => throw (MongooseError "E11000 duplicate key error")
  | None => put_store (<[oid := fields newProduct]> s) ;; mret newProduct
  end.

(** [this.productModel.find()] *)
Definition getProducts : M (list Product) :=
  call Find ;;
  s ← get_store ;
  mret (map (fun kv => {| _id := kv.1; fields := kv.2 |}) (map_to_list s)).

(** [this.productModel.findById(id)] *)
Definition getProductById (id : string) : M (option Product) :=
  call (FindById id) ;;
  match ObjectId.cast id with
  | None => throw (MongooseError "Cast to ObjectId failed")
  | Some oid =>
      s ← get_store ;
      mret ((fun f => {| _id := oid; fields := f |}) <$> s !! oid)
  end.

(** [this.productModel.findByIdAndUpdate(id, dto, { new: true })]: the
    keys of the update that are schema paths are set, the others kept. *)
Definition updateProduct (id : string) (updateProductDto : gmap string JsValue)
    : M (option Product) :=
  call (FindByIdAndUpdate id) ;;
  match ObjectId.cast id with
  | None => throw (MongooseError "Cast to ObjectId failed")
  | Some oid =>
      s ← get_store ;
      match s !! oid with
      | None => mret None
      | Some f =>
          let f' := in_schema updateProductDto ∪ f in
          put_store (<[oid := f']> s) ;;
          mret (Some {| _id := oid; fields := f' |})
      end
  end.

(** [this.productModel.findByIdAndDelete(id)] *)
Definition deleteProduct (id : string) : M (option Product) :=
  call (FindByIdAndDelete id) ;;
  match ObjectId.cast id with
  | None => throw (MongooseError "Cast to ObjectId failed")
  | Some oid =>
      s ← get_store ;
      match s !! oid with
      | None => mret None
      | Some f => put_store (delete oid s) ;; mret (Some {| _id := oid; fields := f |})
      end
  end.

End Service.

(** *** products.controller.ts *)

(** What a handler returns. *)
Inductive Returned :=
| Message (message : string)
| MessageProduct (message : string) (product : Product)
| CountProducts (count : nat) (products : list Product).

Module Controller.

Definition createProduct (body : gmap string JsValue) : M Returned :=
  createProductDto ← ValidationPipe CreateProductDto body ;
  newProduct ← Service.createProduct createProductDto ;
  mret (MessageProduct "Product created successfully" newProduct).

Definition getProducts : M Returned :=
  products ← Service.getProducts ;
  mret (CountProducts (length products) products).

Definition getProductById (id : string) : M Returned :=
  if negb (ObjectId.isValid id)
  then throw (HttpException "Invalid ID format" HttpStatus_BAD_REQUEST)
  else
    product ← Service.getProductById id ;
    match product with
    | None => throw (HttpException "Product not found" HttpStatus_NOT_FOUND)
    | Some product => mret (MessageProduct "Product retrieved successfully" product)
    end.

Definition updateProductById (id : string) (body : gmap string JsValue) : M Returned :=
  updateProductDto ← ValidationPipe UpdateProductDto body ;
  if negb (ObjectId.isValid id)
  then throw (HttpException "Invalid ID format" HttpStatus_BAD_REQUEST)
  else
    updatedProduct ← Service.updateProduct id updateProductDto ;
    match updatedProduct with
    | None => throw (HttpException "Product not found" HttpStatus_NOT_FOUND)
    | Some updatedProduct =>
        mret (MessageProduct "Product successfully updated" updatedProduct)
    end.

Definition deleteProduct (id : string) : M Returned :=
  if negb (ObjectId.isValid id)
  then throw (HttpException "Invalid ID format" HttpStatus_BAD_REQUEST)
  else
    deletedProduct ← Service.deleteProduct id ;
    match deletedProduct with
    | None => throw (HttpException "Product not found" HttpStatus_NOT_FOUND)
    | Some _ => mret (Message "Product successfully deleted")
    end.

End Controller.

End Products.
Import Products.

(* ================================================================== *)
(** ** HTTP: requests, responses, middleware *)
(* ================================================================== *)

Record Request := {
  method : string;
  originalUrl : string;
  headers : gmap string string;     (* names in lower case, as Node gives them *)
  body : gmap string JsValue
}.

Inductive ResponseBody :=
| Json (r : Returned)
| ErrorBody (statusCode : nat) (message : string)
| ValidationErrorBody (statusCode : nat) (messages : list string).

Record Response := {
  status : nat;
  json : ResponseBody
}.

Definition Next : Type := World -> World * Response.
Definition Handler : Type := Request -> Next.
Definition Middleware : Type := Request -> Next -> Next.

(** logger.middleware.ts *)
Definition LoggerMiddleware : Middleware := fun req next w =>
  next (emit (ConsoleLog ("Incoming Request: " +:+ method req +:+ ", " +:+ originalUrl req)) w).

(** auth.middleware.ts *)
Definition AuthMiddleware : Middleware := fun req next w =>
  let token := headers req !! "authorization" in
  if falsy token then (w, {| status := 403; json := Json (Message "Unauthorized") |})
  else
    next (emit (ConsoleLog ("User authenticated with token: " +:+ template token)) w).

(** The default exception filter and the default success status of a
    route. *)
Definition respond (success : nat) (m : M Returned) : Next := fun w =>
  match m w with
  | (w', inr r) => (w', {| status := success; json := Json r |})
  | (w', inl (HttpException msg st)) => (w', {| status := st; json := ErrorBody st msg |})
  | (w', inl (BadRequestException msgs)) =>
      (w', {| status := 400; json := ValidationErrorBody 400 msgs |})
  | (w', inl (MongooseError _)) =>
      (w', {| status := 500; json := ErrorBody 500 "Internal server error" |})
  end.

(** The path of a URL, without its query string, cut at the slashes. *)
Fixpoint segments_aux (cur : string) (s : string) : list string :=
  match s with
  | EmptyString => [cur]
  | String c r =>
      if Ascii.eqb c "?" then [cur]
      else if Ascii.eqb c "/" then cur :: segments_aux "" r
      else segments_aux (cur +:+ String c "") r
  end.

Definition segments (url : string) : list string :=
  filter (fun s => s <> "") (segments_aux "" url).

(** The routes of [@Controller('products')]; POST answers 201, the other
    methods 200. Requests for the other controllers go to [others]. *)
Definition products_routes (others : Handler) : Handler := fun req =>
  match segments (originalUrl req) with
  | ["products"] =>
      if String.eqb (method req) "POST" then respond 201 (Controller.createProduct (body req))
      else if String.eqb (method req) "GET" then respond 200 Controller.getProducts
      else others req
  | ["products"; id] =>
      if String.eqb (method req) "GET" then respond 200 (Controller.getProductById id)
      else if String.eqb (method req) "PATCH"
      then respond 200 (Controller.updateProductById id (body req))
      else if String.eqb (method req) "DELETE" then respond 200 (Controller.deleteProduct id)
      else others req
  | _ => others req
  end.

(* ================================================================== *)
(** ** app.module.ts and main.ts *)
(* ================================================================== *)

(** [forRoutes(pattern)]: ['*'] is every route, any other pattern names
    one path. *)
Definition route_matches (pattern : string) (url : string) : bool :=
  String.eqb pattern "*" || bool_decide (segments pattern = segments url).

Record NestApplication := {
  globals : list Middleware;                 (* [app.use], in call order *)
  consumer : list (Middleware * string);     (* [configure]: middleware, routes *)
  router : Handler;
  listening : option JsValue                 (* the port, once [listen] ran *)
}.

(** A module-bound middleware runs on the routes it was bound to. *)
Definition bound (mr : Middleware * string) : Middleware := fun req next =>
  if route_matches mr.2 (originalUrl req) then mr.1 req next else next.

(** The chain a request goes through: the global middleware registered with
    [app.use], then the module-bound middleware registered when the
    application initialises, then the router. *)
Definition chain (app : NestApplication) : Handler := fun req =>
  foldr (fun m next => m req next) (router app req)
        (globals app ++ map bound (consumer app)).

(** A request is served once the application listens. *)
Definition serve (app : NestApplication) (req : Request) (w : World)
    : option (World * Response) :=
  match listening app with
  | None => None
  | Some _ => Some (chain app req w)
  end.

(** The process environment and the files around it; an environment file
    is given by what dotenv parses out of it. *)
Record Host := {
  process_env : gmap string string;
  files : gmap string (gmap string string)
}.

Inductive StartupEvent :=
| ExistsSync (path : string)
| LoadEnvFile (path : string)
| Create
| Use
| Listen (port : JsValue).

Section App.

(** The handlers of [AppController] and [UsersController]: their services
    are not among the sources. *)
Variable other_controllers : Handler.

(** [const envFile = `.env.${process.env.NODE_ENV}`] *)
Definition envFile (h : Host) : string :=
  ".env." +:+ template (process_env h !! "NODE_ENV").

(** [ConfigModule.forRoot({ envFilePath, validate })]: the variables of the
    file, overridden by those of the process, go through [validate]. *)
Definition ConfigModule_forRoot (h : Host) (envFilePath : string)
    (validate : gmap string JsValue -> Exn + gmap string JsValue)
    : Exn + gmap string JsValue :=
  let file := default ∅ (files h !! envFilePath) in
  validate (JString <$> (process_env h ∪ file)).

(** [AppModule.configure(consumer)] *)
Definition configure : list (Middleware * string) :=
  [(AuthMiddleware, "*")].

(** [NestFactory.create(AppModule)] *)
Definition NestFactory_create : NestApplication :=
  {| globals := []; consumer := configure;
     router := products_routes other_controllers; listening := None |}.

(** [app.use(m)] *)
Definition use (m : Middleware) (app : NestApplication) : NestApplication :=
  {| globals := globals app ++ [m]; consumer := consumer app;
     router := router app; listening := listening app |}.

(** [app.listen(port)] *)
Definition listen (port : JsValue) (app : NestApplication) : NestApplication :=
  {| globals := globals app; consumer := consumer app;
     router := router app; listening := Some port |}.

(** [bootstrap()], with [process.env.PORT ?? 3000] read from the validated
    configuration, which [ConfigModule] assigns to the process. *)
Definition bootstrap (config : gmap string JsValue)
    : list StartupEvent * NestApplication :=
  let app := NestFactory_create in
  let app := use LoggerMiddleware app in
  let port := default (JNumber 3000) (config !! "PORT") in
  ([Create; Use; Listen port], listen port app).

(** Process start: [main.ts] imports [app.module.ts], whose top level
    checks the environment file and validates its content; only then does
    [bootstrap] run. *)
Definition main (h : Host) : list StartupEvent * (Exn + NestApplication) :=
  let envFile := envFile h in
  if negb (existsSync (dom (files h)) envFile)
  then ([ExistsSync envFile], inl (Error (not_found_message envFile)))
  else
    match ConfigModule_forRoot h envFile validateEnvironmentVariables with
    | inl e => ([ExistsSync envFile; LoadEnvFile envFile], inl e)
    | inr config =>
        let '(events, app) := bootstrap config in
        (ExistsSync envFile :: LoadEnvFile envFile :: events, inr app)
    end.

End App.

(* ================================================================== *)
(** ** Scenarios and the vocabulary of the properties *)
(* ================================================================== *)

Definition occurs (s t : string) : Prop := exists a b, t = a +:+ s +:+ b.

(** A host in mode [staging] with only [.env.dev] on disk. *)
Definition host_without_file : Host :=
  {| process_env := {[ "NODE_ENV" := "staging" ]};
     files := {[ ".env.dev" := {[ "MONGODB_URI" := "mongodb://127.0.0.1:27017/dev_db" ]} ]} |}.

(** A handler that answers 404, in the place of the controllers outside
    the products module. *)
Definition no_other_controllers : Handler := fun req w =>
  (w, {| status := 404;
         json := ErrorBody 404 ("Cannot " +:+ method req +:+ " " +:+ originalUrl req) |}).

(** A schema violation in the words of the specification: the connection
    URI is missing or is not text. *)
Definition spec_violation (config : gmap string JsValue) : bool :=
  match config !! "MONGODB_URI" with
  | Some (JString _) => false
  | _ => true
  end.

(** What the validator refuses: a URI that is missing, undefined, null, or
    an array (which implicit conversion leaves an array). *)
Definition uri_refused (config : gmap string JsValue) : bool :=
  match config !! "MONGODB_URI" with
  | None | Some JUndefined | Some JNull | Some (JArray _) => true
  | Some _ => false
  end.

(** The error [validateSync] builds for the connection URI. *)
Definition uri_error (v : JsValue) : ValidationError :=
  {| target := "EnvironmentVariables"; property := "MONGODB_URI"; value := v;
     constraints := [("isString", "MONGODB_URI must be a string")] |}.

(** A host whose environment file lacks the connection URI. *)
Definition host_without_uri : Host :=
  {| process_env := {[ "NODE_ENV" := "dev" ]};
     files := {[ ".env.dev" := {[ "PORT" := "8080" ]} ]} |}.

Definition incoming (req : Request) : Event :=
  ConsoleLog ("Incoming Request: " +:+ method req +:+ ", " +:+ originalUrl req).

Definition authenticated (token : string) : Event :=
  ConsoleLog ("User authenticated with token: " +:+ token).

Definition unauthorized : Response :=
  {| status := 403; json := Json (Message "Unauthorized") |}.

(** A host that starts: mode [dev], a complete [.env.dev]. *)
Definition host_dev : Host :=
  {| process_env := {[ "NODE_ENV" := "dev" ]};
     files := {[ ".env.dev" := {[ "MONGODB_URI" := "mongodb://127.0.0.1:27017/dev_db" ]} ]} |}.

Definition app_dev : NestApplication :=
  (bootstrap no_other_controllers
     {[ "MONGODB_URI" := JString "mongodb://127.0.0.1:27017/dev_db";
        "NODE_ENV" := JString "dev" ]}).2.

Definition events_dev : list StartupEvent :=
  [ExistsSync ".env.dev"; LoadEnvFile ".env.dev"; Create; Use; Listen (JNumber 3000)].

Definition empty_world : World :=
  {| store := ∅; trace := []; entropy := fun _ => "abcdefghijkl"; drawn := 0 |}.

Definition get_products (hs : gmap string string) : Request :=
  {| method := "GET"; originalUrl := "/products"; headers := hs; body := ∅ |}.

(** The request with its authorization header removed. *)
Definition without_authorization (req : Request) : Request :=
  {| method := method req; originalUrl := originalUrl req;
     headers := delete "authorization" (headers req); body := body req |}.

Ltac decide_property :=
  vm_compute; split; intros H; first [reflexivity | discriminate H].

Ltac run_M :=
  unfold mbind, M_bind, mret, M_ret, call, log, throw, get_store, put_store,
    new_ObjectId; cbn beta iota.

(** The record the store holds for an id string, if the string casts. *)
Definition stored (w : World) (id : string) : option (gmap string JsValue) :=
  oid ← ObjectId.cast id; store w !! oid.

Definition invalid_id : Response :=
  {| status := 400; json := ErrorBody 400 "Invalid ID format" |}.

Definition not_found : Response :=
  {| status := 404; json := ErrorBody 404 "Product not found" |}.

(** A create body with a negative price. *)
Definition negative_price : gmap string JsValue :=
  {[ "name" := JString "Laptop"; "price" := JNumber (-1) ]}.

(** The payload of the round-trip scenario; 999.99 is 99999/100. *)
Definition laptop : gmap string JsValue :=
  {[ "name" := JString "Laptop";
     "price" := JNumber (99999 # 100);
     "description" := JString "High-performance laptop";
     "category" := JString "Electronics" ]}.

(** The body of the partial update; 899.99 is 89999/100. *)
Definition price_only : gmap string JsValue :=
  {[ "price" := JNumber (89999 # 100) ]}.

Definition world_with_laptop : World :=
  {| store := {[ "abcdefghijkl" := laptop ]}; trace := [];
     entropy := fun _ => "mnopqrstuvwx"; drawn := 0 |}.

(** The world after [new ObjectId()] took one identifier. *)
Definition drawn_one (w : World) : World :=
  {| store := store w; trace := trace w; entropy := entropy w; drawn := S (drawn w) |}.

(** The answer of a handler that returned [r]. *)
Definition answered (code : nat) (r : Returned) : Response :=
  {| status := code; json := Json r |}.

(** The answer of the validation pipe to a body with these errors. *)
Definition bad_request (errors : list ValidationError) : Response :=
  {| status := 400;
     json := ValidationErrorBody 400
               (concat (map (fun e => map snd (constraints e)) errors)) |}.

(** The records of a collection, as [find()] returns them. *)
Definition records (s : gmap string (gmap string JsValue)) : list Product :=
  map (fun kv => {| _id := kv.1; fields := kv.2 |}) (map_to_list s).

(** A value that is text. *)
Definition is_text (v : option JsValue) : bool :=
  match v with Some (JString _) => true | _ => false end.

(** A value that is absent, undefined or null. *)
Definition is_absent (v : option JsValue) : bool :=
  match v with None | Some JUndefined | Some JNull => true | _ => false end.

(** A value that is a number not below [b]. *)
Definition is_number_from (b : Q) (v : option JsValue) : bool :=
  match v with Some (JNumber q) => Qle_bool b q | _ => false end.


(** The bodies the update DTO lets through: each of name, description,
    category and imageUrl absent or text, the price absent or a number that
    is not negative. *)
Definition accepted_update (dto : gmap string JsValue) : bool :=
  (is_absent (dto !! "name") || is_text (dto !! "name"))
  && (is_absent (dto !! "description") || is_text (dto !! "description"))
  && (is_absent (dto !! "price") || is_number_from 0 (dto !! "price"))
  && (is_absent (dto !! "category") || is_text (dto !! "category"))
  && (is_absent (dto !! "imageUrl") || is_text (dto !! "imageUrl")).

(** Two worlds that differ at most in what was logged. *)
Definition same_data (w1 w2 : World) : Prop :=
  store w1 = store w2 /\ entropy w1 = entropy w2 /\ drawn w1 = drawn w2.

(** The handler of the products controller that a request is routed to,
    if any. *)
Definition products_handler (req : Request) : option Next :=
  match segments (originalUrl req) with
  | ["products"] =>
      if String.eqb (method req) "POST"
      then Some (respond 201 (Controller.createProduct (body req)))
      else if String.eqb (method req) "GET" then Some (respond 200 Controller.getProducts)
      else None
  | ["products"; id] =>
      if String.eqb (method req) "GET" then Some (respond 200 (Controller.getProductById id))
      else if String.eqb (method req) "PATCH"
      then Some (respond 200 (Controller.updateProductById id (body req)))
      else if String.eqb (method req) "DELETE"
      then Some (respond 200 (Controller.deleteProduct id))
      else None
  | _ => None
  end.

(** What a products handler may add to the trace: nothing, or one
    persistence call, and nothing when it answers 400. *)
Definition one_call_at_most (w : World) (r : World * Response) : Prop :=
  exists l, trace r.1 = (trace w ++ l)%list
            /\ (l = [] \/ exists c, l = [Persistence c])
            /\ (status r.2 = 400 -> l = []).




(* ================================================================== *)
(** * Properties *)
(* ================================================================== *)

(** ** ObjectId: hexadecimal round trip and validity *)

Section ObjectIdFacts.
Import ObjectId.

Lemma hex_digit_val_hi (b : ascii) :
  hex_val (hex_digit (N_of_ascii b / 16)%N) = Some (N_of_ascii b / 16)%N.
Proof. destruct b as [[] [] [] [] [] [] [] []]; vm_compute; reflexivity. Qed.

Lemma hex_digit_val_lo (b : ascii) :
  hex_val (hex_digit (N_of_ascii b mod 16)%N) = Some (N_of_ascii b mod 16)%N.
Proof. destruct b as [[] [] [] [] [] [] [] []]; vm_compute; reflexivity. Qed.

Lemma byte_of_nibbles (b : ascii) :
  ascii_of_N (16 * (N_of_ascii b / 16) + N_of_ascii b mod 16)%N = b.
Proof. destruct b as [[] [] [] [] [] [] [] []]; vm_compute; reflexivity. Qed.

Lemma fromHex_toHexString (bytes : string) :
  fromHex (toHexString bytes) = Some bytes.
Proof.
  induction bytes as [|b r IH]; [reflexivity|].
  cbn [toHexString fromHex].
  rewrite hex_digit_val_hi, hex_digit_val_lo, IH, byte_of_nibbles.
  reflexivity.
Qed.

Lemma length_toHexString (bytes : string) :
  String.length (toHexString bytes) = 2 * String.length bytes.
Proof.
  induction bytes as [|b r IH]; [reflexivity|].
  cbn [toHexString String.length]. rewrite IH. lia.
Qed.

Lemma toHexString_is_hex (bytes : string) :
  string_forall is_hex (toHexString bytes) = true.
Proof.
  induction bytes as [|b r IH]; [reflexivity|].
  cbn [toHexString string_forall]. unfold is_hex at 1 2.
  rewrite hex_digit_val_hi, hex_digit_val_lo, IH. reflexivity.
Qed.

(** The hexadecimal form of a 12-byte identifier is a valid id string and
    casts back to the identifier. *)
Lemma toHexString_valid (oid : string) :
  String.length oid = 12 ->
  isValid (toHexString oid) = true /\ cast (toHexString oid) = Some oid.
Proof.
  intros Hlen.
  assert (Hre : checkForHexRegExp (toHexString oid) = true).
  { unfold checkForHexRegExp.
    rewrite length_toHexString, Hlen, toHexString_is_hex. reflexivity. }
  assert (Hc : cast (toHexString oid) = Some oid).
  { unfold cast. rewrite Hre. apply fromHex_toHexString. }
  split; [unfold isValid; rewrite Hc; reflexivity | exact Hc].
Qed.

Lemma fromHex_total (n : nat) : forall s : string,
  String.length s = 2 * n -> string_forall is_hex s = true -> is_Some (fromHex s).
Proof.
  induction n as [|n IH]; intros s Hlen Hhex.
  - destruct s; [eexists; reflexivity | discriminate].
  - destruct s as [|h [|l r]]; try (cbn in Hlen; lia).
    cbn [string_forall] in Hhex.
    apply andb_prop in Hhex as [Hh Hhex]. apply andb_prop in Hhex as [Hl Hr].
    destruct (IH r) as [bytes Hbytes]; [cbn in Hlen; lia | exact Hr |].
    cbn [fromHex]. unfold is_hex in Hh, Hl.
    destruct (hex_val h); [|discriminate]. destruct (hex_val l); [|discriminate].
    rewrite Hbytes. eexists; reflexivity.
Qed.

(** A valid id string always casts: after the controller's check the
    persistence layer never sees a malformed identifier. *)
Lemma cast_of_valid (id : string) :
  isValid id = true -> is_Some (cast id).
Proof.
  unfold isValid. intros H.
  destruct (cast id) as [oid|]; [eexists; reflexivity | discriminate].
Qed.

(** Every string of 24 hexadecimal digits is a valid id. *)
Lemma hex24_valid (id : string) :
  checkForHexRegExp id = true -> isValid id = true.
Proof.
  intros Hre. unfold isValid, cast. rewrite Hre.
  unfold checkForHexRegExp in Hre.
  apply andb_prop in Hre as [Hl Hh]. apply Nat.eqb_eq in Hl.
  destruct (fromHex_total 12 id Hl Hh) as [bytes ->]. reflexivity.
Qed.

Lemma cast_invalid (id : string) :
  isValid id = false -> cast id = None.
Proof.
  unfold isValid. intros H.
  destruct (cast id); [discriminate | reflexivity].
Qed.

End ObjectIdFacts.

(** ** Strings: occurrence of a text inside another *)

Lemma append_assoc (a b c : string) : (a +:+ b) +:+ c = a +:+ b +:+ c.
Proof.
  induction a as [|x a IH]; [reflexivity|].
  change (String x ((a +:+ b) +:+ c) = String x (a +:+ b +:+ c)).
  rewrite IH. reflexivity.
Qed.

Lemma append_empty_r (a : string) : a +:+ "" = a.
Proof.
  induction a as [|x a IH]; [reflexivity|].
  change (String x (a +:+ "") = String x a). rewrite IH. reflexivity.
Qed.

Lemma occurs_here (s a b : string) : occurs s (a +:+ s +:+ b).
Proof. exists a, b. reflexivity. Qed.

Lemma occurs_append_l (s t u : string) : occurs s t -> occurs s (t +:+ u).
Proof.
  intros (a & b & ->). exists a, (b +:+ u).
  rewrite !append_assoc. reflexivity.
Qed.

Lemma occurs_append_r (s t u : string) : occurs s u -> occurs s (t +:+ u).
Proof.
  intros (a & b & ->). exists (t +:+ a), b.
  rewrite !append_assoc. reflexivity.
Qed.

(** Every element of a joined list occurs in the result. *)
Lemma occurs_join (sep s : string) (l : list string) (x : string) :
  x ∈ l -> occurs s x -> occurs s (join sep l).
Proof.
  induction l as [|y l IH]; intros Hin Hs; [inversion Hin|].
  apply elem_of_cons in Hin as [->|Hin].
  - destruct l; [exact Hs | cbn [join]; apply occurs_append_l, Hs].
  - destruct l as [|z l]; [inversion Hin|].
    cbn [join]. do 2 apply occurs_append_r. apply IH; assumption.
Qed.

(** ** class-validator and class-transformer *)

Lemma plainToInstance_lookup ps b (plain : gmap string JsValue) (k : string) :
  plainToInstance ps b plain !! k
  = (fun v => if b && bool_decide (k ∈ ps) then transform_String v else v)
      <$> plain !! k.
Proof.
  unfold plainToInstance. rewrite map_lookup_imap.
  destruct (plain !! k); reflexivity.
Qed.

(** Without implicit conversion the instance has the fields of the plain
    object. *)
Lemma plainToInstance_plain ps (plain : gmap string JsValue) :
  plainToInstance ps false plain = plain.
Proof.
  apply map_eq; intros k. rewrite plainToInstance_lookup.
  destruct (plain !! k); reflexivity.
Qed.

(** [validateSync] reports every property that fails, wherever it stands
    in the class. *)
Lemma validateSync_complete cls (obj : gmap string JsValue) p e :
  p ∈ properties cls ->
  validate_property (class_name cls) obj p = Some e ->
  e ∈ validateSync cls obj.
Proof.
  intros Hin He. unfold validateSync. apply list_elem_of_omap.
  exists p. split; assumption.
Qed.

Lemma validate_property_name cls (obj : gmap string JsValue) p e :
  validate_property cls obj p = Some e -> property e = p.1.
Proof.
  unfold validate_property. intros H.
  destruct (is_optional p.2 && nullish (default JUndefined (obj !! p.1)));
    [discriminate|].
  destruct (failed_constraints _ _ _); [discriminate|].
  injection H as <-. reflexivity.
Qed.

(** The rendering of the error array names the property of each error. *)
Lemma errors_toString_lists (errors : list ValidationError) e :
  e ∈ errors -> occurs (property e) (errors_toString errors).
Proof.
  intros Hin. unfold errors_toString.
  apply occurs_join with (x := ValidationError_toString e).
  - apply list_elem_of_fmap. exists e. split; [reflexivity | exact Hin].
  - unfold ValidationError_toString.
    rewrite <- !append_assoc. rewrite !append_assoc.
    exists ("An instance of " +:+ target e +:+ " has failed the validation:"
              +:+ newline +:+ " - property "),
      (" has failed the following constraints: "
         +:+ join ", " (map fst (constraints e)) +:+ " " +:+ newline).
    rewrite !append_assoc. reflexivity.
Qed.

(* ================================================================== *)
(** ** Configuration resolver and validator *)
(* ================================================================== *)

Lemma existsSync_dom (h : Host) (path : string) :
  existsSync (dom (files h)) path = bool_decide (is_Some (files h !! path)).
Proof.
  unfold existsSync. apply bool_decide_ext. apply elem_of_dom.
Qed.

(** C3. For every mode (also an undefined one, which the template renders
    as [undefined]) whose file [.env.<mode>] does not exist, the check of
    [validateEnvFile] throws the not-found error, and process start stops
    there with that error: the only startup event is the existence check,
    no environment file is loaded, no application is created and no
    listener is opened. *)
Theorem missing_env_file_aborts_startup
    (others : Handler) (h : Host) (mode : option string) :
  process_env h !! "NODE_ENV" = mode ->
  files h !! (".env." +:+ template mode) = None ->
  let path := ".env." +:+ template mode in
  validateEnvFile (dom (files h)) path = inl (Error (not_found_message path))
  /\ main others h = ([ExistsSync path], inl (Error (not_found_message path)))
  /\ (forall port, Listen port ∉ (main others h).1)
  /\ (forall p, LoadEnvFile p ∉ (main others h).1).
Proof.
  intros Hmode Hfile path.
  assert (Hex : existsSync (dom (files h)) path = false).
  { rewrite existsSync_dom. apply bool_decide_eq_false.
    subst path. rewrite Hfile. intros [? ?]; discriminate. }
  assert (Hmain : main others h
                  = ([ExistsSync path], inl (Error (not_found_message path)))).
  { unfold main, envFile. rewrite Hmode. fold path. rewrite Hex. reflexivity. }
  split; [unfold validateEnvFile; rewrite Hex; reflexivity|].
  split; [exact Hmain|].
  rewrite Hmain. cbn [fst].
  split; intros x Hin; apply list_elem_of_singleton in Hin; discriminate.
Qed.

Lemma missing_env_file_aborts_startup_witness :
  main no_other_controllers host_without_file
  = ([ExistsSync ".env.staging"],
     inl (Error (not_found_message ".env.staging"))).
Proof.
  refine (proj1 (proj2 (missing_env_file_aborts_startup
            no_other_controllers host_without_file (Some "staging") _ _)));
    vm_compute; reflexivity.
Defined.

Lemma validateSync_env (config : gmap string JsValue) :
  let v := default JUndefined
             (plainToInstance EnvironmentVariables_strings true config !! "MONGODB_URI") in
  validateSync EnvironmentVariables
    (plainToInstance EnvironmentVariables_strings true config)
  = if uri_refused config then [uri_error v] else [].
Proof.
  intros v. subst v. unfold uri_refused, validateSync.
  cbn [properties EnvironmentVariables class_name omap list_omap].
  unfold validate_property. cbn [fst snd].
  rewrite plainToInstance_lookup.
  destruct (config !! "MONGODB_URI") as [[]|]; reflexivity.
Qed.

(** C4, counterexample. A numeric connection URI is a violation in the
    words of the specification, yet validation does not fail: implicit
    conversion turns it into text first. *)
Lemma numeric_uri_is_accepted :
  let config : gmap string JsValue := {[ "MONGODB_URI" := JNumber 123 ]} in
  spec_violation config = true
  /\ validateEnvironmentVariables config
     = inr {[ "MONGODB_URI" := JString "123" ]}.
Proof. split; vm_compute; reflexivity. Qed.

(** C4, amended. Validation fails exactly when the connection URI is
    missing, undefined, null or an array. It then throws one error whose
    message renders the whole error array, so it names every property that
    [validateSync] found in violation (here [MONGODB_URI]); at process start,
    when neither the environment file nor the process defines the URI, the
    same error stops startup before [bootstrap], so nothing is created and
    no listener is opened. Otherwise it returns the converted configuration, in which
    the URI is text (a number, boolean or object was converted). *)
Theorem env_validation_after_conversion (config : gmap string JsValue) :
  let validatedConfig := plainToInstance EnvironmentVariables_strings true config in
  let errors := validateSync EnvironmentVariables validatedConfig in
  (if uri_refused config
   then errors <> []
        /\ validateEnvironmentVariables config = inl (Error (invalid_message errors))
        /\ (forall e, e ∈ errors -> occurs (property e) (invalid_message errors))
        /\ occurs "MONGODB_URI" (invalid_message errors)
   else validateEnvironmentVariables config = inr validatedConfig
        /\ exists s, validatedConfig !! "MONGODB_URI" = Some (JString s))
  /\ (forall others h file,
        files h !! envFile h = Some file ->
        (process_env h ∪ file) !! "MONGODB_URI" = None ->
        main others h
        = ([ExistsSync (envFile h); LoadEnvFile (envFile h)],
           inl (Error (invalid_message [uri_error JUndefined])))).
Proof.
  intros validatedConfig errors. split.
  - pose proof (validateSync_env config) as Hv. cbv zeta in Hv.
    fold validatedConfig errors in Hv.
    destruct (uri_refused config) eqn:Href.
    + assert (Hlist : forall e, e ∈ errors ->
                        occurs (property e) (invalid_message errors)).
      { intros e He. unfold invalid_message.
        apply occurs_append_r, errors_toString_lists, He. }
      split; [rewrite Hv; discriminate|].
      split; [unfold validateEnvironmentVariables;
              fold validatedConfig errors; rewrite Hv; reflexivity|].
      split; [exact Hlist|].
      apply (Hlist (uri_error
               (default JUndefined (validatedConfig !! "MONGODB_URI")))).
      rewrite Hv. apply list_elem_of_singleton. reflexivity.
    + split.
      * unfold validateEnvironmentVariables.
        fold validatedConfig errors. rewrite Hv. reflexivity.
      * subst validatedConfig. rewrite plainToInstance_lookup.
        unfold uri_refused in Href.
        destruct (config !! "MONGODB_URI") as [[]|];
          try discriminate; eexists; reflexivity.
  - intros others h file Hfile Hmissing.
    assert (Hlook : (JString <$> process_env h ∪ file) !! "MONGODB_URI" = None)
      by (rewrite lookup_fmap, Hmissing; reflexivity).
    assert (Href : uri_refused (JString <$> process_env h ∪ file) = true)
      by (unfold uri_refused; rewrite Hlook; reflexivity).
    unfold main. rewrite existsSync_dom.
    rewrite bool_decide_eq_true_2 by (rewrite Hfile; eexists; reflexivity).
    cbn [negb]. unfold ConfigModule_forRoot. rewrite Hfile.
    change (default ∅ (Some file)) with file.
    unfold validateEnvironmentVariables.
    rewrite validateSync_env, Href, plainToInstance_lookup, Hlook.
    reflexivity.
Qed.

Lemma env_validation_after_conversion_witness :
  main no_other_controllers host_without_uri
  = ([ExistsSync ".env.dev"; LoadEnvFile ".env.dev"],
     inl (Error (invalid_message [uri_error JUndefined]))).
Proof.
  refine (proj2 (env_validation_after_conversion ∅)
            no_other_controllers host_without_uri {[ "PORT" := "8080" ]} _ _);
    vm_compute; reflexivity.
Defined.

(* ================================================================== *)
(** ** Request gate *)
(* ================================================================== *)

(** The wildcard binds a middleware to every route. *)
Lemma bound_wildcard (m : Middleware) (req : Request) :
  bound (m, "*") req = m req.
Proof. reflexivity. Qed.

(** An application that came out of process start listens, and its chain is
    the logger, then the authorization check, then the router. *)
Lemma started_chain (others : Handler) (h : Host) events app :
  main others h = (events, inr app) ->
  is_Some (listening app)
  /\ (globals app ++ map bound (consumer app))%list
     = [LoggerMiddleware; bound (AuthMiddleware, "*")]
  /\ router app = products_routes others
  /\ forall req,
       chain app req
       = LoggerMiddleware req (AuthMiddleware req (products_routes others req)).
Proof.
  unfold main. intros Hmain.
  destruct (negb _); [discriminate|].
  destruct (ConfigModule_forRoot _ _ _) as [e|config]; [discriminate|].
  cbn in Hmain. injection Hmain as _ <-.
  split; [eexists; reflexivity|].
  repeat split; reflexivity.
Qed.

Lemma started_serve (others : Handler) (h : Host) events app req w :
  main others h = (events, inr app) ->
  serve app req w
  = Some (LoggerMiddleware req (AuthMiddleware req (products_routes others req)) w).
Proof.
  intros Hmain.
  destruct (started_chain _ _ _ _ Hmain) as ([p Hp] & _ & _ & Hchain).
  unfold serve. rewrite Hp, Hchain. reflexivity.
Qed.

(** The gate on a falsy token: the logger's line, then the 403. *)
Lemma gate_falsy (next : Next) req w :
  falsy (headers req !! "authorization") = true ->
  LoggerMiddleware req (AuthMiddleware req next) w = (emit (incoming req) w, unauthorized).
Proof.
  intros Hf. unfold LoggerMiddleware, AuthMiddleware. rewrite Hf. reflexivity.
Qed.

(** The gate on a truthy token: both lines, then the continuation. *)
Lemma gate_truthy (next : Next) req w token :
  headers req !! "authorization" = Some token -> token <> "" ->
  LoggerMiddleware req (AuthMiddleware req next) w
  = next (emit (authenticated token) (emit (incoming req) w)).
Proof.
  intros Hh Hne. unfold LoggerMiddleware, AuthMiddleware. rewrite Hh.
  destruct token; [contradiction|]. reflexivity.
Qed.

Lemma config_dev :
  ConfigModule_forRoot host_dev ".env.dev" validateEnvironmentVariables
  = inr {[ "MONGODB_URI" := JString "mongodb://127.0.0.1:27017/dev_db";
           "NODE_ENV" := JString "dev" ]}.
Proof. vm_compute. reflexivity. Qed.

Lemma main_dev : main no_other_controllers host_dev = (events_dev, inr app_dev).
Proof.
  unfold main.
  change (envFile host_dev) with ".env.dev".
  replace (existsSync (dom (files host_dev)) ".env.dev") with true
    by (vm_compute; reflexivity).
  cbn [negb]. rewrite config_dev. reflexivity.
Qed.

(** C1. In a started application, a request without the authorization
    header is answered 403 with [{ message: "Unauthorized" }] whatever the
    route and whatever the handlers are: the store is untouched and the only
    event is the logger's line, so no handler and no persistence call ran.
    A request whose header holds a non-empty value is passed to the router,
    that is to the handler its route matches. *)
Theorem gate_rejects_missing_header_and_passes_token
    (others : Handler) (h : Host) events app (req : Request) (w : World) :
  main others h = (events, inr app) ->
  (headers req !! "authorization" = None ->
     serve app req w = Some (emit (incoming req) w, unauthorized)
     /\ store (emit (incoming req) w) = store w
     /\ trace (emit (incoming req) w) = (trace w ++ [incoming req])%list)
  /\ (forall token,
        headers req !! "authorization" = Some token -> token <> "" ->
        serve app req w
        = Some (router app req (emit (authenticated token) (emit (incoming req) w)))).
Proof.
  intros Hmain.
  destruct (started_chain _ _ _ _ Hmain) as (_ & _ & Hrouter & _).
  rewrite (started_serve _ _ _ _ req w Hmain). split.
  - intros Hnone. rewrite gate_falsy by (rewrite Hnone; reflexivity).
    repeat split; reflexivity.
  - intros token Hsome Hne. rewrite (gate_truthy _ _ _ token Hsome Hne).
    rewrite Hrouter. reflexivity.
Qed.

Lemma gate_rejects_missing_header_and_passes_token_witness :
  serve app_dev (get_products ∅) empty_world
  = Some (emit (incoming (get_products ∅)) empty_world, unauthorized)
  /\ serve app_dev (get_products {[ "authorization" := "Bearer t" ]}) empty_world
     = Some (router app_dev (get_products {[ "authorization" := "Bearer t" ]})
               (emit (authenticated "Bearer t")
                  (emit (incoming (get_products {[ "authorization" := "Bearer t" ]}))
                     empty_world))).
Proof.
  split.
  - refine (proj1 (proj1 (gate_rejects_missing_header_and_passes_token
              no_other_controllers host_dev events_dev app_dev
              (get_products ∅) empty_world main_dev) _)).
    reflexivity.
  - refine (proj2 (gate_rejects_missing_header_and_passes_token
              no_other_controllers host_dev events_dev app_dev
              (get_products {[ "authorization" := "Bearer t" ]}) empty_world main_dev)
              "Bearer t" _ _).
    + reflexivity.
    + discriminate.
Defined.

(** C2. In a started application the chain is the logger, registered by
    [app.use], then the authorization check bound to the wildcard, which
    matches the URL of every request, then the router. So the
    authorization check starts in the world where the logger has written
    its line; a rejected request ends there; and the router, with it the
    resource handler, starts in a world whose trace already holds the
    logger's line followed by the authorization line. *)
Theorem stages_run_in_fixed_order
    (others : Handler) (h : Host) events app (req : Request) (w : World) :
  main others h = (events, inr app) ->
  (globals app ++ map bound (consumer app))%list
  = [LoggerMiddleware; bound (AuthMiddleware, "*")]
  /\ route_matches "*" (originalUrl req) = true
  /\ chain app req w = AuthMiddleware req (router app req) (emit (incoming req) w)
  /\ (falsy (headers req !! "authorization") = true ->
        exists w1,
          chain app req w = (w1, unauthorized)
          /\ trace w1 = (trace w ++ [incoming req])%list)
  /\ (forall token,
        headers req !! "authorization" = Some token -> token <> "" ->
        exists w2,
          chain app req w = router app req w2
          /\ trace w2 = (trace w ++ [incoming req; authenticated token])%list
          /\ store w2 = store w).
Proof.
  intros Hmain.
  destruct (started_chain _ _ _ _ Hmain) as (_ & Hstack & Hrouter & Hchain).
  split; [exact Hstack|]. split; [reflexivity|].
  rewrite Hchain, Hrouter.
  split; [reflexivity|]. split.
  - intros Hf. exists (emit (incoming req) w).
    rewrite gate_falsy by exact Hf. split; reflexivity.
  - intros token Hsome Hne.
    exists (emit (authenticated token) (emit (incoming req) w)).
    rewrite (gate_truthy _ _ _ token Hsome Hne).
    split; [reflexivity|]. split; [|reflexivity].
    cbn [emit trace]. rewrite <- app_assoc. reflexivity.
Qed.

Lemma stages_run_in_fixed_order_witness :
  exists w2,
    chain app_dev (get_products {[ "authorization" := "Bearer t" ]}) empty_world
    = router app_dev (get_products {[ "authorization" := "Bearer t" ]}) w2
    /\ trace w2
       = [incoming (get_products {[ "authorization" := "Bearer t" ]});
          authenticated "Bearer t"]
    /\ store w2 = ∅.
Proof.
  refine (proj2 (proj2 (proj2 (proj2 (stages_run_in_fixed_order
            no_other_controllers host_dev events_dev app_dev
            (get_products {[ "authorization" := "Bearer t" ]}) empty_world
            main_dev)))) "Bearer t" _ _).
  - reflexivity.
  - discriminate.
Defined.

(** C10. A request whose authorization header is the empty string gets the
    same 403 as the request without the header, and nothing but the
    logger's line happens. More generally a request is rejected unless the
    header holds a non-empty value. *)
Theorem empty_token_is_rejected_like_a_missing_one
    (others : Handler) (h : Host) events app (req : Request) (w : World) :
  main others h = (events, inr app) ->
  (headers req !! "authorization" = Some "" ->
     serve app req w = Some (emit (incoming req) w, unauthorized)
     /\ serve app req w = serve app (without_authorization req) w)
  /\ ((forall token, headers req !! "authorization" = Some token -> token = "") ->
      serve app req w = Some (emit (incoming req) w, unauthorized)).
Proof.
  intros Hmain.
  assert (Hrej : forall r, falsy (headers r !! "authorization") = true ->
            serve app r w = Some (emit (incoming r) w, unauthorized)).
  { intros r Hf. rewrite (started_serve _ _ _ _ r w Hmain).
    rewrite gate_falsy by exact Hf. reflexivity. }
  split.
  - intros Hempty. rewrite (Hrej req) by (rewrite Hempty; reflexivity).
    split; [reflexivity|].
    rewrite (Hrej (without_authorization req)); [reflexivity|].
    cbn [without_authorization headers]. rewrite lookup_delete_eq. reflexivity.
  - intros Honly. apply Hrej.
    destruct (headers req !! "authorization") as [token|] eqn:Hh; [|reflexivity].
    rewrite (Honly token eq_refl). reflexivity.
Qed.

Lemma empty_token_is_rejected_like_a_missing_one_witness :
  serve app_dev (get_products {[ "authorization" := "" ]}) empty_world
  = Some (emit (incoming (get_products {[ "authorization" := "" ]})) empty_world,
          unauthorized).
Proof.
  refine (proj1 (proj1 (empty_token_is_rejected_like_a_missing_one
            no_other_controllers host_dev events_dev app_dev
            (get_products {[ "authorization" := "" ]}) empty_world main_dev) _)).
  reflexivity.
Defined.

(* ================================================================== *)
(** ** Products: service and controller *)
(* ================================================================== *)

Lemma cast_Some_valid (id oid : string) :
  ObjectId.cast id = Some oid -> ObjectId.isValid id = true.
Proof. unfold ObjectId.isValid. intros ->. reflexivity. Qed.

Lemma run_getProductById (id oid : string) (w : World) :
  ObjectId.cast id = Some oid ->
  Service.getProductById id w
  = (emit (Persistence (FindById id)) w,
     inr ((fun f => {| _id := oid; fields := f |}) <$> store w !! oid)).
Proof. intros Hc. unfold Service.getProductById. run_M. rewrite Hc. reflexivity. Qed.

Lemma run_deleteProduct_missing (id oid : string) (w : World) :
  ObjectId.cast id = Some oid -> store w !! oid = None ->
  Service.deleteProduct id w = (emit (Persistence (FindByIdAndDelete id)) w, inr None).
Proof.
  intros Hc Hs. unfold Service.deleteProduct. run_M. rewrite Hc.
  cbn [emit store]. rewrite Hs. reflexivity.
Qed.

Lemma run_deleteProduct_found (id oid : string) f (w : World) :
  ObjectId.cast id = Some oid -> store w !! oid = Some f ->
  Service.deleteProduct id w
  = (set_store (delete oid (store w)) (emit (Persistence (FindByIdAndDelete id)) w),
     inr (Some {| _id := oid; fields := f |})).
Proof.
  intros Hc Hs. unfold Service.deleteProduct. run_M. rewrite Hc.
  cbn [emit store]. rewrite Hs. reflexivity.
Qed.

Lemma run_updateProduct_missing (id oid : string) dto (w : World) :
  ObjectId.cast id = Some oid -> store w !! oid = None ->
  Service.updateProduct id dto w
  = (emit (Persistence (FindByIdAndUpdate id)) w, inr None).
Proof.
  intros Hc Hs. unfold Service.updateProduct. run_M. rewrite Hc.
  cbn [emit store]. rewrite Hs. reflexivity.
Qed.

Lemma run_updateProduct_found (id oid : string) dto f (w : World) :
  ObjectId.cast id = Some oid -> store w !! oid = Some f ->
  Service.updateProduct id dto w
  = (set_store (<[oid := in_schema dto ∪ f]> (store w))
       (emit (Persistence (FindByIdAndUpdate id)) w),
     inr (Some {| _id := oid; fields := in_schema dto ∪ f |})).
Proof.
  intros Hc Hs. unfold Service.updateProduct. run_M. rewrite Hc.
  cbn [emit store]. rewrite Hs. reflexivity.
Qed.

Lemma run_createProduct (dto : gmap string JsValue) (w : World) :
  store w !! next_oid w = None ->
  exists w',
    Service.createProduct dto w
    = (w', inr {| _id := next_oid w; fields := in_schema dto |})
    /\ store w' = <[next_oid w := in_schema dto]> (store w)
    /\ trace w' = (trace w ++ [Persistence (Save (next_oid w))])%list.
Proof.
  intros Hs. unfold Service.createProduct. run_M.
  cbn [emit store]. rewrite Hs. eexists. split; [reflexivity|].
  split; reflexivity.
Qed.

(** The validation pipe lets a body through unchanged, or throws without
    touching the world. *)
Lemma run_ValidationPipe cls (body : gmap string JsValue) (w : World) :
  ValidationPipe cls body w
  = match validateSync cls body with
    | [] => (w, inr body)
    | errors =>
        (w, inl (BadRequestException
                   (concat (map (fun e => map snd (constraints e)) errors))))
    end.
Proof.
  unfold ValidationPipe. rewrite plainToInstance_plain.
  destruct (validateSync cls body); reflexivity.
Qed.

(** C5. The DTO of the source file has no lower bound on the price: a body
    with price -1 passes the validation pipe, the document is saved and the
    answer is 201. The DTO as the README documents it (with [@Min(0)])
    refuses the same body. *)
Theorem create_accepts_a_negative_price :
  let r := respond 201 (Controller.createProduct negative_price) empty_world in
  validateSync CreateProductDto negative_price = []
  /\ status r.2 = 201
  /\ json r.2
     = Json (MessageProduct "Product created successfully"
               {| _id := "abcdefghijkl"; fields := negative_price |})
  /\ store r.1 = {[ "abcdefghijkl" := negative_price ]}
  /\ trace r.1 = [Persistence (Save "abcdefghijkl")]
  /\ map property (validateSync CreateProductDto_README negative_price) = ["price"].
Proof. cbv zeta. repeat apply conj; vm_compute; reflexivity. Qed.

(** C6. For get, update and delete by id: a malformed id is answered 400
    and the world is unchanged (no persistence call); a valid id for which
    the store holds no record is answered 404 after the one lookup (for
    update, when the body passes validation); and
    [GET /products/not-a-valid-id] is answered 400. *)
Theorem malformed_id_is_400_and_missing_record_is_404
    (id : string) (dto : gmap string JsValue) (w : World) :
  (ObjectId.isValid id = false ->
     respond 200 (Controller.getProductById id) w = (w, invalid_id)
     /\ respond 200 (Controller.deleteProduct id) w = (w, invalid_id)
     /\ exists r, respond 200 (Controller.updateProductById id dto) w = (w, r)
                  /\ status r = 400)
  /\ (ObjectId.isValid id = true -> stored w id = None ->
      respond 200 (Controller.getProductById id) w
      = (emit (Persistence (FindById id)) w, not_found)
      /\ respond 200 (Controller.deleteProduct id) w
         = (emit (Persistence (FindByIdAndDelete id)) w, not_found)
      /\ (validateSync UpdateProductDto dto = [] ->
          respond 200 (Controller.updateProductById id dto) w
          = (emit (Persistence (FindByIdAndUpdate id)) w, not_found)))
  /\ (forall others hs b,
        products_routes others
          {| method := "GET"; originalUrl := "/products/not-a-valid-id";
             headers := hs; body := b |} w
        = (w, invalid_id)).
Proof.
  split; [|split].
  - intros Hbad. split; [|split].
    + unfold Controller.getProductById. rewrite Hbad. reflexivity.
    + unfold Controller.deleteProduct. rewrite Hbad. reflexivity.
    + unfold Controller.updateProductById, respond. run_M.
      rewrite run_ValidationPipe.
      destruct (validateSync UpdateProductDto dto).
      * rewrite Hbad. eexists. split; reflexivity.
      * eexists. split; reflexivity.
  - intros Hok Hnone.
    destruct (cast_of_valid id Hok) as [oid Hc].
    unfold stored in Hnone. rewrite Hc in Hnone. cbn in Hnone.
    split; [|split].
    + unfold Controller.getProductById, respond. rewrite Hok. cbn [negb]. run_M.
      rewrite (run_getProductById id oid w Hc), Hnone. reflexivity.
    + unfold Controller.deleteProduct, respond. rewrite Hok. cbn [negb]. run_M.
      rewrite (run_deleteProduct_missing id oid w Hc Hnone). reflexivity.
    + intros Hdto. unfold Controller.updateProductById, respond. run_M.
      rewrite run_ValidationPipe, Hdto. rewrite Hok. cbn [negb].
      rewrite (run_updateProduct_missing id oid dto w Hc Hnone). reflexivity.
  - intros others hs b. reflexivity.
Qed.

Lemma malformed_id_is_400_and_missing_record_is_404_witness :
  respond 200 (Controller.getProductById "not-a-valid-id") empty_world
  = (empty_world, invalid_id)
  /\ respond 200 (Controller.getProductById "65f0a1b2c3d4e5f6a7b8c9d0") empty_world
     = (emit (Persistence (FindById "65f0a1b2c3d4e5f6a7b8c9d0")) empty_world, not_found).
Proof.
  split.
  - refine (proj1 (proj1 (malformed_id_is_400_and_missing_record_is_404
              "not-a-valid-id" ∅ empty_world) _)).
    reflexivity.
  - refine (proj1 (proj1 (proj2 (malformed_id_is_400_and_missing_record_is_404
              "65f0a1b2c3d4e5f6a7b8c9d0" ∅ empty_world)) _ _));
      reflexivity.
Defined.

Lemma laptop_valid :
  validateSync CreateProductDto laptop = [] /\ in_schema laptop = laptop.
Proof. split; vm_compute; reflexivity. Qed.

(** C7. Creating the laptop payload answers 201 with a record that has the
    drawn identifier and the four fields of the payload; fetching by the
    hexadecimal form of that identifier answers 200 with the same record
    and leaves the store as it was. The drawn identifier is 12 bytes and
    not yet in the collection. *)
Theorem create_then_get_returns_the_created_record (w : World) :
  String.length (next_oid w) = 12 ->
  store w !! next_oid w = None ->
  exists w1 w2 product,
    respond 201 (Controller.createProduct laptop) w
    = (w1, {| status := 201;
              json := Json (MessageProduct "Product created successfully" product) |})
    /\ _id product = next_oid w
    /\ fields product = laptop
    /\ respond 200 (Controller.getProductById (ObjectId.toHexString (_id product))) w1
       = (w2, {| status := 200;
                 json := Json (MessageProduct "Product retrieved successfully" product) |})
    /\ store w2 = store w1.
Proof.
  intros Hlen Hfresh.
  destruct laptop_valid as [Hvalid Hkeep].
  destruct (run_createProduct laptop w Hfresh) as (w1 & Hrun & Hstore & _).
  rewrite Hkeep in Hrun, Hstore.
  destruct (toHexString_valid (next_oid w) Hlen) as [Hok Hc].
  exists w1, (emit (Persistence (FindById (ObjectId.toHexString (next_oid w)))) w1),
    {| _id := next_oid w; fields := laptop |}.
  split; [|split; [reflexivity|split; [reflexivity|split; [|reflexivity]]]].
  - unfold Controller.createProduct, respond. run_M.
    rewrite run_ValidationPipe, Hvalid, Hrun. reflexivity.
  - cbn [_id]. unfold Controller.getProductById, respond. rewrite Hok. cbn [negb]. run_M.
    rewrite (run_getProductById _ _ w1 Hc), Hstore, lookup_insert_eq.
    reflexivity.
Qed.

Lemma create_then_get_returns_the_created_record_witness :
  exists w1 w2 product,
    respond 201 (Controller.createProduct laptop) empty_world
    = (w1, {| status := 201;
              json := Json (MessageProduct "Product created successfully" product) |})
    /\ _id product = "abcdefghijkl"
    /\ fields product = laptop
    /\ respond 200 (Controller.getProductById (ObjectId.toHexString (_id product))) w1
       = (w2, {| status := 200;
                 json := Json (MessageProduct "Product retrieved successfully" product) |})
    /\ store w2 = store w1.
Proof.
  refine (create_then_get_returns_the_created_record empty_world _ _); reflexivity.
Defined.

Lemma price_only_valid :
  validateSync UpdateProductDto price_only = []
  /\ in_schema price_only = price_only.
Proof. split; vm_compute; reflexivity. Qed.

(** C8. Updating an existing product with the body [{ price: 899.99 }]
    answers 200 with the updated record; in the store the record's price is
    899.99, every other field of the record (name, description, category
    among them) is what it was, and every other record is untouched. *)
Theorem price_only_update_changes_only_the_price
    (id : string) (f : gmap string JsValue) (w : World) :
  stored w id = Some f ->
  exists w' oid f',
    ObjectId.cast id = Some oid
    /\ respond 200 (Controller.updateProductById id price_only) w
       = (w', {| status := 200;
                 json := Json (MessageProduct "Product successfully updated"
                                 {| _id := oid; fields := f' |}) |})
    /\ store w' !! oid = Some f'
    /\ f' !! "price" = Some (JNumber (89999 # 100))
    /\ (forall k, k <> "price" -> f' !! k = f !! k)
    /\ (forall o, o <> oid -> store w' !! o = store w !! o).
Proof.
  unfold stored. intros Hst.
  destruct (ObjectId.cast id) as [oid|] eqn:Hc; [|discriminate].
  cbn in Hst.
  destruct price_only_valid as [Hvalid Hkeep].
  pose proof (run_updateProduct_found id oid price_only f w Hc Hst) as Hrun.
  rewrite Hkeep in Hrun.
  eexists _, oid, (price_only ∪ f).
  split; [reflexivity|]. split.
  - unfold Controller.updateProductById, respond. run_M.
    rewrite run_ValidationPipe, Hvalid, (cast_Some_valid id oid Hc).
    cbn [negb]. rewrite Hrun. reflexivity.
  - cbn [set_store store emit]. split; [apply lookup_insert_eq|].
    split; [apply lookup_union_Some_l; reflexivity|].
    split.
    + intros k Hk. apply lookup_union_r.
      unfold price_only. apply lookup_singleton_ne. congruence.
    + intros o Ho. apply lookup_insert_ne. congruence.
Qed.

Lemma price_only_update_changes_only_the_price_witness :
  exists w' oid f',
    ObjectId.cast "6162636465666768696a6b6c" = Some oid
    /\ respond 200 (Controller.updateProductById "6162636465666768696a6b6c" price_only)
         world_with_laptop
       = (w', {| status := 200;
                 json := Json (MessageProduct "Product successfully updated"
                                 {| _id := oid; fields := f' |}) |})
    /\ store w' !! oid = Some f'
    /\ f' !! "price" = Some (JNumber (89999 # 100))
    /\ (forall k, k <> "price" -> f' !! k = laptop !! k)
    /\ (forall o, o <> oid -> store w' !! o = store world_with_laptop !! o).
Proof.
  refine (price_only_update_changes_only_the_price
            "6162636465666768696a6b6c" laptop world_with_laptop _).
  reflexivity.
Defined.

(** C9. Deleting by a valid id for which the store holds no record answers
    404 and leaves the store as it was, so deleting again answers 404
    again. Deleting an existing record answers 200 and removes it, after
    which every further delete of that id answers 404. Each call returns a
    response. *)
Theorem delete_of_a_missing_record_is_404_every_time (id : string) (w : World) :
  ObjectId.isValid id = true ->
  let first := respond 200 (Controller.deleteProduct id) w in
  let second := respond 200 (Controller.deleteProduct id) first.1 in
  let third := respond 200 (Controller.deleteProduct id) second.1 in
  (stored w id = None ->
     first.2 = not_found /\ store first.1 = store w
     /\ second.2 = not_found /\ store second.1 = store w)
  /\ (forall f, stored w id = Some f ->
        first.2 = {| status := 200; json := Json (Message "Product successfully deleted") |}
        /\ stored first.1 id = None
        /\ second.2 = not_found
        /\ third.2 = not_found).
Proof.
  intros Hok first second third.
  destruct (cast_of_valid id Hok) as [oid Hc].
  assert (Hmiss : forall w0, store w0 !! oid = None ->
            respond 200 (Controller.deleteProduct id) w0
            = (emit (Persistence (FindByIdAndDelete id)) w0, not_found)).
  { intros w0 H0. unfold Controller.deleteProduct, respond. rewrite Hok. cbn [negb]. run_M.
    rewrite (run_deleteProduct_missing id oid w0 Hc H0). reflexivity. }
  unfold stored. rewrite Hc. cbn [mbind option_bind].
  split.
  - intros Hnone. subst third second first.
    rewrite (Hmiss w Hnone). cbn [fst snd].
    rewrite (Hmiss (emit _ w)) by exact Hnone.
    repeat split; reflexivity.
  - intros f Hsome.
    assert (Hfirst : first
              = (set_store (delete oid (store w))
                   (emit (Persistence (FindByIdAndDelete id)) w),
                 {| status := 200; json := Json (Message "Product successfully deleted") |})).
    { subst first. unfold Controller.deleteProduct, respond. rewrite Hok. cbn [negb]. run_M.
      rewrite (run_deleteProduct_found id oid f w Hc Hsome). reflexivity. }
    assert (Hgone : store first.1 !! oid = None).
    { rewrite Hfirst. cbn [fst set_store store]. apply lookup_delete_eq. }
    assert (Hsecond : second
              = (emit (Persistence (FindByIdAndDelete id)) first.1, not_found)).
    { subst second. apply Hmiss, Hgone. }
    split; [rewrite Hfirst; reflexivity|].
    split; [exact Hgone|].
    split; [rewrite Hsecond; reflexivity|].
    subst third. rewrite Hsecond. cbn [fst].
    rewrite (Hmiss (emit _ first.1)) by exact Hgone. reflexivity.
Qed.

Lemma delete_of_a_missing_record_is_404_every_time_witness :
  let first :=
    respond 200 (Controller.deleteProduct "65f0a1b2c3d4e5f6a7b8c9d0") empty_world in
  let second :=
    respond 200 (Controller.deleteProduct "65f0a1b2c3d4e5f6a7b8c9d0") first.1 in
  first.2 = not_found /\ store first.1 = store empty_world
  /\ second.2 = not_found /\ store second.1 = store empty_world.
Proof.
  refine (proj1 (delete_of_a_missing_record_is_404_every_time
            "65f0a1b2c3d4e5f6a7b8c9d0" empty_world _) _);
    reflexivity.
Defined.

(* ================================================================== *)
(** ** What each products handler answers, case by case *)
(* ================================================================== *)

Lemma isValid_cast (id : string) :
  ObjectId.isValid id = match ObjectId.cast id with Some _ => true | None => false end.
Proof. reflexivity. Qed.

Lemma getProductById_outcome (id : string) (w : World) :
  respond 200 (Controller.getProductById id) w
  = match ObjectId.cast id with
    | None => (w, invalid_id)
    | Some oid =>
        (emit (Persistence (FindById id)) w,
         match store w !! oid with
         | None => not_found
         | Some f =>
             answered 200 (MessageProduct "Product retrieved successfully"
                             {| _id := oid; fields := f |})
         end)
    end.
Proof.
  unfold Controller.getProductById. rewrite isValid_cast.
  destruct (ObjectId.cast id) as [oid|] eqn:Hc; [|reflexivity].
  cbn [negb]. unfold respond. run_M.
  rewrite (run_getProductById id oid w Hc).
  destruct (store w !! oid); reflexivity.
Qed.

Lemma deleteProduct_outcome (id : string) (w : World) :
  respond 200 (Controller.deleteProduct id) w
  = match ObjectId.cast id with
    | None => (w, invalid_id)
    | Some oid =>
        match store w !! oid with
        | None => (emit (Persistence (FindByIdAndDelete id)) w, not_found)
        | Some f =>
            (set_store (delete oid (store w))
               (emit (Persistence (FindByIdAndDelete id)) w),
             answered 200 (Message "Product successfully deleted"))
        end
    end.
Proof.
  unfold Controller.deleteProduct. rewrite isValid_cast.
  destruct (ObjectId.cast id) as [oid|] eqn:Hc; [|reflexivity].
  cbn [negb]. unfold respond. run_M.
  destruct (store w !! oid) as [f|] eqn:Hs.
  - rewrite (run_deleteProduct_found id oid f w Hc Hs). reflexivity.
  - rewrite (run_deleteProduct_missing id oid w Hc Hs). reflexivity.
Qed.

Lemma updateProductById_outcome (id : string) (dto : gmap string JsValue) (w : World) :
  respond 200 (Controller.updateProductById id dto) w
  = match validateSync UpdateProductDto dto with
    | e :: es => (w, bad_request (e :: es))
    | [] =>
        match ObjectId.cast id with
        | None => (w, invalid_id)
        | Some oid =>
            match store w !! oid with
            | None => (emit (Persistence (FindByIdAndUpdate id)) w, not_found)
            | Some f =>
                (set_store (<[oid := in_schema dto ∪ f]> (store w))
                   (emit (Persistence (FindByIdAndUpdate id)) w),
                 answered 200 (MessageProduct "Product successfully updated"
                                 {| _id := oid; fields := in_schema dto ∪ f |}))
            end
        end
    end.
Proof.
  unfold Controller.updateProductById, respond. run_M.
  rewrite run_ValidationPipe.
  destruct (validateSync UpdateProductDto dto); [|reflexivity].
  rewrite isValid_cast.
  destruct (ObjectId.cast id) as [oid|] eqn:Hc; [|reflexivity].
  cbn [negb].
  destruct (store w !! oid) as [f|] eqn:Hs.
  - rewrite (run_updateProduct_found id oid dto f w Hc Hs). reflexivity.
  - rewrite (run_updateProduct_missing id oid dto w Hc Hs). reflexivity.
Qed.

Lemma createProduct_outcome (body : gmap string JsValue) (w : World) :
  respond 201 (Controller.createProduct body) w
  = match validateSync CreateProductDto body with
    | e :: es => (w, bad_request (e :: es))
    | [] =>
        let w1 := emit (Persistence (Save (next_oid w))) (drawn_one w) in
        match store w !! next_oid w with
        | Some _ =>
            (w1, {| status := 500; json := ErrorBody 500 "Internal server error" |})
        | None =>
            (set_store (<[next_oid w := in_schema body]> (store w)) w1,
             answered 201 (MessageProduct "Product created successfully"
                             {| _id := next_oid w; fields := in_schema body |}))
        end
    end.
Proof.
  unfold Controller.createProduct, respond. run_M.
  rewrite run_ValidationPipe.
  destruct (validateSync CreateProductDto body); [|reflexivity].
  unfold Service.createProduct. run_M. cbn [emit store].
  destruct (store w !! next_oid w); reflexivity.
Qed.

Lemma getProducts_outcome (w : World) :
  respond 200 Controller.getProducts w
  = (emit (Persistence Find) w,
     answered 200 (CountProducts (length (records (store w))) (records (store w)))).
Proof. reflexivity. Qed.

(* ================================================================== *)
(** ** The product DTOs *)
(* ================================================================== *)

Lemma validateSync_nil cls (obj : gmap string JsValue) :
  validateSync cls obj = []
  <-> Forall (fun p => validate_property (class_name cls) obj p = None) (properties cls).
Proof.
  unfold validateSync. induction (properties cls) as [|p ps IH].
  - split; [constructor | reflexivity].
  - cbn [omap list_omap].
    destruct (validate_property (class_name cls) obj p) eqn:Hp.
    + split; [discriminate | intros H; inversion H; congruence].
    + rewrite IH. split; [intros H; constructor; [exact Hp | exact H]
                         | intros H; inversion H; assumption].
Qed.




Lemma optional_text_valid c (obj : gmap string JsValue) p :
  validate_property c obj (p, [IsOptional; IsString]) = None
  <-> is_absent (obj !! p) || is_text (obj !! p) = true.
Proof.
  unfold validate_property. cbn [fst snd].
  destruct (obj !! p) as [[]|]; decide_property.
Qed.

Lemma optional_price_valid c (obj : gmap string JsValue) p :
  validate_property c obj (p, [IsOptional; IsNumber; Min 0]) = None
  <-> is_absent (obj !! p) || is_number_from 0 (obj !! p) = true.
Proof.
  unfold validate_property. cbn [fst snd].
  destruct (obj !! p) as [[| | |q| | |]|]; try decide_property.
  cbn [default is_optional existsb orb andb nullish is_absent is_number_from
       failed_constraints omap list_omap holds constraint_name fmap option_fmap
       option_map].
  change (id (JNumber q)) with (JNumber q). cbn beta iota.
  destruct (Qle_bool 0 q); split; intros H; first [reflexivity | discriminate H].
Qed.


Lemma UpdateProductDto_accepts (dto : gmap string JsValue) :
  validateSync UpdateProductDto dto = [] <-> accepted_update dto = true.
Proof.
  rewrite validateSync_nil.
  cbn [properties UpdateProductDto class_name].
  rewrite !Forall_cons, Forall_nil.
  rewrite !optional_text_valid, optional_price_valid.
  unfold accepted_update. rewrite !andb_true_iff. tauto.
Qed.

Lemma in_schema_lookup (dto : gmap string JsValue) (k : string) :
  in_schema dto !! k = if bool_decide (k ∈ Product_paths) then dto !! k else None.
Proof.
  unfold in_schema. apply option_eq. intros v.
  rewrite map_lookup_filter_Some. cbn [fst].
  case_bool_decide as Hin; split.
  - intros [Hv _]. exact Hv.
  - intros Hv. split; assumption.
  - intros [_ Hk]. contradiction.
  - discriminate.
Qed.

Lemma stored_cast (w : World) (id : string) f :
  stored w id = Some f ->
  exists oid, ObjectId.cast id = Some oid /\ store w !! oid = Some f.
Proof.
  unfold stored. destruct (ObjectId.cast id) as [oid|]; [|discriminate].
  intros H. exists oid. split; [reflexivity | exact H].
Qed.

(* ================================================================== *)
(** ** Further properties of the products handlers *)
(* ================================================================== *)











(** X6. The record an update answers with is the record a following get by
    the same id answers with: the update returns the new state of the
    record, not the old one. *)
Theorem get_after_update_returns_the_updated_record
    (id : string) (dto f : gmap string JsValue) (w : World) :
  accepted_update dto = true ->
  stored w id = Some f ->
  exists w' product,
    respond 200 (Controller.updateProductById id dto) w
    = (w', answered 200 (MessageProduct "Product successfully updated" product))
    /\ (respond 200 (Controller.getProductById id) w').2
       = answered 200 (MessageProduct "Product retrieved successfully" product).
Proof.
  intros Ha Hst. destruct (stored_cast w id f Hst) as (oid & Hc & Hs).
  apply UpdateProductDto_accepts in Ha.
  rewrite updateProductById_outcome, Ha, Hc, Hs.
  eexists _, _. split; [reflexivity|].
  rewrite getProductById_outcome, Hc.
  cbn [set_store store emit snd]. rewrite lookup_insert_eq. reflexivity.
Qed.

Lemma get_after_update_returns_the_updated_record_witness :
  exists w' product,
    respond 200 (Controller.updateProductById "6162636465666768696a6b6c" price_only)
      world_with_laptop
    = (w', answered 200 (MessageProduct "Product successfully updated" product))
    /\ (respond 200 (Controller.getProductById "6162636465666768696a6b6c") w').2
       = answered 200 (MessageProduct "Product retrieved successfully" product).
Proof.
  refine (get_after_update_returns_the_updated_record
            "6162636465666768696a6b6c" price_only laptop world_with_laptop _ _);
    reflexivity.
Defined.

(** X7. An update with an empty body is accepted: on an existing record it
    is answered 200 with the record as it was and the collection is
    unchanged. *)
Theorem empty_update_is_a_successful_no_op
    (id : string) (f : gmap string JsValue) (w : World) :
  stored w id = Some f ->
  exists w' oid,
    ObjectId.cast id = Some oid
    /\ respond 200 (Controller.updateProductById id ∅) w
       = (w', answered 200 (MessageProduct "Product successfully updated"
                              {| _id := oid; fields := f |}))
    /\ store w' = store w.
Proof.
  intros Hst. destruct (stored_cast w id f Hst) as (oid & Hc & Hs).
  assert (Hv : validateSync UpdateProductDto ∅ = [])
    by (apply UpdateProductDto_accepts; reflexivity).
  assert (He : in_schema ∅ ∪ f = f).
  { apply map_eq. intros k. apply lookup_union_r.
    rewrite in_schema_lookup, lookup_empty. case_bool_decide; reflexivity. }
  rewrite updateProductById_outcome, Hv, Hc, Hs, He.
  eexists _, oid. split; [reflexivity|]. split; [reflexivity|].
  cbn [set_store store emit]. apply insert_id. exact Hs.
Qed.

Lemma empty_update_is_a_successful_no_op_witness :
  exists w' oid,
    ObjectId.cast "6162636465666768696a6b6c" = Some oid
    /\ respond 200 (Controller.updateProductById "6162636465666768696a6b6c" ∅)
         world_with_laptop
       = (w', answered 200 (MessageProduct "Product successfully updated"
                              {| _id := oid; fields := laptop |}))
    /\ store w' = store world_with_laptop.
Proof.
  refine (empty_update_is_a_successful_no_op
            "6162636465666768696a6b6c" laptop world_with_laptop _).
  reflexivity.
Defined.

(** X8. Deleting an existing record is answered 200 and removes that
    record and no other; afterwards a get by the same id is answered 404,
    and so is an accepted update. *)
Theorem delete_removes_that_record_only
    (id : string) (dto f : gmap string JsValue) (w : World) :
  stored w id = Some f ->
  exists w' oid,
    ObjectId.cast id = Some oid
    /\ respond 200 (Controller.deleteProduct id) w
       = (w', answered 200 (Message "Product successfully deleted"))
    /\ store w' = delete oid (store w)
    /\ (forall o, o <> oid -> store w' !! o = store w !! o)
    /\ (respond 200 (Controller.getProductById id) w').2 = not_found
    /\ (accepted_update dto = true ->
        (respond 200 (Controller.updateProductById id dto) w').2 = not_found).
Proof.
  intros Hst. destruct (stored_cast w id f Hst) as (oid & Hc & Hs).
  rewrite deleteProduct_outcome, Hc, Hs.
  eexists _, oid. split; [reflexivity|]. split; [reflexivity|].
  cbn [set_store store emit].
  split; [reflexivity|]. split; [|split].
  - intros o Ho. apply lookup_delete_ne. congruence.
  - rewrite getProductById_outcome, Hc. cbn [set_store store emit snd].
    rewrite lookup_delete_eq. reflexivity.
  - intros Ha. apply UpdateProductDto_accepts in Ha.
    rewrite updateProductById_outcome, Ha, Hc. cbn [set_store store emit].
    rewrite lookup_delete_eq. reflexivity.
Qed.

Lemma delete_removes_that_record_only_witness :
  exists w' oid,
    ObjectId.cast "6162636465666768696a6b6c" = Some oid
    /\ respond 200 (Controller.deleteProduct "6162636465666768696a6b6c") world_with_laptop
       = (w', answered 200 (Message "Product successfully deleted"))
    /\ store w' = delete oid (store world_with_laptop)
    /\ (forall o, o <> oid -> store w' !! o = store world_with_laptop !! o)
    /\ (respond 200 (Controller.getProductById "6162636465666768696a6b6c") w').2
       = not_found
    /\ (accepted_update price_only = true ->
        (respond 200 (Controller.updateProductById "6162636465666768696a6b6c"
                        price_only) w').2 = not_found).
Proof.
  refine (delete_removes_that_record_only
            "6162636465666768696a6b6c" price_only laptop world_with_laptop _).
  reflexivity.
Defined.



Lemma records_elem (s : gmap string (gmap string JsValue)) oid f :
  {| _id := oid; fields := f |} ∈ records s <-> s !! oid = Some f.
Proof.
  unfold records. rewrite list_elem_of_fmap. split.
  - intros ([o g] & Heq & Hin). cbn in Heq. injection Heq as -> ->.
    apply elem_of_map_to_list. exact Hin.
  - intros Hs. exists (oid, f). split; [reflexivity|].
    apply elem_of_map_to_list. exact Hs.
Qed.

Lemma records_length (s : gmap string (gmap string JsValue)) :
  length (records s) = size s.
Proof. unfold records. rewrite length_map. apply length_map_to_list. Qed.

Lemma records_ids (s : gmap string (gmap string JsValue)) :
  map _id (records s) = (map_to_list s).*1.
Proof.
  unfold records. rewrite map_map. reflexivity.
Qed.

(** X10. The list request is answered 200 with the number of records in the
    collection and with each record of the collection exactly once (no
    identifier twice); it makes the one [find] call and leaves the
    collection unchanged. *)
Theorem list_returns_every_record_once (w : World) :
  exists products,
    respond 200 Controller.getProducts w
    = (emit (Persistence Find) w,
       answered 200 (CountProducts (size (store w)) products))
    /\ length products = size (store w)
    /\ (forall oid f,
          {| _id := oid; fields := f |} ∈ products <-> store w !! oid = Some f)
    /\ NoDup (map _id products)
    /\ store (emit (Persistence Find) w) = store w.
Proof.
  exists (records (store w)). rewrite getProducts_outcome, records_length.
  split; [reflexivity|]. split; [reflexivity|].
  split; [intros oid f; apply records_elem|].
  split; [rewrite records_ids; apply NoDup_fst_map_to_list | reflexivity].
Qed.




(** X13. A request that is not answered with success leaves the collection
    as it was: a create not answered 201, an update or delete not answered
    200. The get and the list never change it. *)
Theorem failed_requests_leave_the_collection_unchanged
    (id : string) (body : gmap string JsValue) (w : World) :
  (status (respond 201 (Controller.createProduct body) w).2 <> 201 ->
     store (respond 201 (Controller.createProduct body) w).1 = store w)
  /\ (status (respond 200 (Controller.updateProductById id body) w).2 <> 200 ->
      store (respond 200 (Controller.updateProductById id body) w).1 = store w)
  /\ (status (respond 200 (Controller.deleteProduct id) w).2 <> 200 ->
      store (respond 200 (Controller.deleteProduct id) w).1 = store w)
  /\ store (respond 200 (Controller.getProductById id) w).1 = store w
  /\ store (respond 200 Controller.getProducts w).1 = store w.
Proof.
  rewrite createProduct_outcome, getProductById_outcome, updateProductById_outcome,
    deleteProduct_outcome, getProducts_outcome.
  cbv zeta.
  destruct (validateSync CreateProductDto body), (validateSync UpdateProductDto body),
    (ObjectId.cast id) as [oid|], (store w !! next_oid w);
    try destruct (store w !! oid);
    cbn [fst snd status answered];
    repeat apply conj; first [reflexivity | intros H; contradiction].
Qed.

Lemma failed_requests_leave_the_collection_unchanged_witness :
  store (respond 200 (Controller.deleteProduct "not-a-valid-id") world_with_laptop).1
  = store world_with_laptop.
Proof.
  refine (proj1 (proj2 (proj2 (failed_requests_leave_the_collection_unchanged
            "not-a-valid-id" ∅ world_with_laptop))) _).
  discriminate.
Defined.

Lemma one_call_each (id : string) (body : gmap string JsValue) (w : World) :
  one_call_at_most w (respond 201 (Controller.createProduct body) w)
  /\ one_call_at_most w (respond 200 Controller.getProducts w)
  /\ one_call_at_most w (respond 200 (Controller.getProductById id) w)
  /\ one_call_at_most w (respond 200 (Controller.updateProductById id body) w)
  /\ one_call_at_most w (respond 200 (Controller.deleteProduct id) w).
Proof.
  assert (Hnone : forall r : Response, one_call_at_most w (w, r)).
  { intros r. exists []. cbn [fst]. rewrite app_nil_r. auto. }
  assert (Hone : forall c (w' : World) (r : Response),
            trace w' = (trace w ++ [Persistence c])%list -> status r <> 400 ->
            one_call_at_most w (w', r)).
  { intros c w' r Ht Hs. exists [Persistence c]. cbn [fst snd].
    split; [exact Ht|]. split; [right; eexists; reflexivity|].
    intros H. contradiction. }
  rewrite createProduct_outcome, getProductById_outcome, updateProductById_outcome,
    deleteProduct_outcome, getProducts_outcome.
  cbv zeta.
  destruct (validateSync CreateProductDto body), (validateSync UpdateProductDto body),
    (ObjectId.cast id) as [oid|], (store w !! next_oid w);
    try destruct (store w !! oid);
    repeat apply conj;
    first [ apply Hnone | eapply Hone; [reflexivity | discriminate] ].
Qed.

(** X14. Every products handler adds to the trace at most one event, a
    persistence call, and none at all when it answers 400: a refused body or
    a malformed id never reaches the persistence layer. *)
Theorem handlers_make_one_persistence_call_at_most
    (id : string) (body : gmap string JsValue) (w : World) :
  one_call_at_most w (respond 201 (Controller.createProduct body) w)
  /\ one_call_at_most w (respond 200 Controller.getProducts w)
  /\ one_call_at_most w (respond 200 (Controller.getProductById id) w)
  /\ one_call_at_most w (respond 200 (Controller.updateProductById id body) w)
  /\ one_call_at_most w (respond 200 (Controller.deleteProduct id) w).
Proof. exact (one_call_each id body w). Qed.

(* ================================================================== *)
(** ** Identifiers *)
(* ================================================================== *)

Lemma cast_Some_hex (id oid : string) :
  ObjectId.cast id = Some oid ->
  ObjectId.checkForHexRegExp id = true /\ ObjectId.fromHex id = Some oid.
Proof.
  unfold ObjectId.cast. destruct (ObjectId.checkForHexRegExp id); [|discriminate].
  intros H. split; [reflexivity | exact H].
Qed.

Lemma length_fromHex (n : nat) : forall s bytes : string,
  String.length s <= n -> ObjectId.fromHex s = Some bytes ->
  String.length s = 2 * String.length bytes.
Proof.
  induction n as [|n IH]; intros s bytes Hn Hs.
  - destruct s; [|cbn in Hn; lia]. cbn in Hs. injection Hs as <-. reflexivity.
  - destruct s as [|h [|l r]].
    + cbn in Hs. injection Hs as <-. reflexivity.
    + discriminate.
    + cbn [ObjectId.fromHex] in Hs.
      destruct (ObjectId.hex_val h); [|discriminate].
      destruct (ObjectId.hex_val l); [|discriminate].
      destruct (ObjectId.fromHex r) as [rest|] eqn:Hr; [|discriminate].
      injection Hs as <-. cbn [String.length] in *.
      rewrite (IH r rest); [lia | lia | exact Hr].
Qed.

Lemma emit_changes_the_world (e : Event) (w : World) : emit e w <> w.
Proof.
  intros H. apply (f_equal trace) in H. cbn [emit trace] in H.
  apply (f_equal (@length Event)) in H. rewrite length_app in H. cbn in H. lia.
Qed.

(** X15. An id string is valid exactly when it is 24 hexadecimal digits,
    and the get and the delete answer 400 "Invalid ID format" with the world
    unchanged exactly for the other strings. *)
Theorem an_id_is_malformed_unless_24_hex_digits (id : string) (w : World) :
  (ObjectId.isValid id = true
   <-> String.length id = 24 /\ ObjectId.string_forall ObjectId.is_hex id = true)
  /\ (respond 200 (Controller.getProductById id) w = (w, invalid_id)
      <-> ObjectId.isValid id = false)
  /\ (respond 200 (Controller.deleteProduct id) w = (w, invalid_id)
      <-> ObjectId.isValid id = false).
Proof.
  split; [|split].
  - split.
    + intros Hv. destruct (cast_of_valid id Hv) as [oid Hc].
      destruct (cast_Some_hex id oid Hc) as [Hre _].
      unfold ObjectId.checkForHexRegExp in Hre.
      apply andb_prop in Hre as [Hl Hh]. apply Nat.eqb_eq in Hl.
      split; assumption.
    + intros [Hl Hh]. apply hex24_valid. unfold ObjectId.checkForHexRegExp.
      rewrite Hl, Hh. reflexivity.
  - rewrite getProductById_outcome, isValid_cast.
    destruct (ObjectId.cast id) as [oid|].
    + split; [|discriminate]. intros H. exfalso.
      apply (emit_changes_the_world (Persistence (FindById id)) w).
      exact (f_equal fst H).
    + split; reflexivity.
  - rewrite deleteProduct_outcome, isValid_cast.
    destruct (ObjectId.cast id) as [oid|].
    + split; [|discriminate]. intros H. exfalso.
      destruct (store w !! oid).
      * apply (f_equal snd) in H. discriminate H.
      * apply (emit_changes_the_world (Persistence (FindByIdAndDelete id)) w).
        exact (f_equal fst H).
    + split; reflexivity.
Qed.

(** X16. A valid id casts to a 12-byte identifier whose hexadecimal form
    is a valid id for the same identifier; so an id and its canonical
    (lower-case) form get and delete the same record with the same answer:
    the case of the hexadecimal digits does not matter. *)
Theorem an_id_and_its_canonical_form_name_the_same_record
    (id oid : string) (w : World) :
  ObjectId.cast id = Some oid ->
  let canonical := ObjectId.toHexString oid in
  String.length oid = 12
  /\ ObjectId.cast canonical = Some oid
  /\ (respond 200 (Controller.getProductById id) w).2
     = (respond 200 (Controller.getProductById canonical) w).2
  /\ (respond 200 (Controller.deleteProduct id) w).2
     = (respond 200 (Controller.deleteProduct canonical) w).2
  /\ store (respond 200 (Controller.deleteProduct id) w).1
     = store (respond 200 (Controller.deleteProduct canonical) w).1.
Proof.
  intros Hc canonical.
  destruct (cast_Some_hex id oid Hc) as [Hre Hfrom].
  assert (Hlen : String.length oid = 12).
  { unfold ObjectId.checkForHexRegExp in Hre.
    apply andb_prop in Hre as [Hl _]. apply Nat.eqb_eq in Hl.
    pose proof (length_fromHex 24 id oid ltac:(lia) Hfrom). lia. }
  destruct (toHexString_valid oid Hlen) as [_ Hcan]. fold canonical in Hcan.
  split; [exact Hlen|]. split; [exact Hcan|].
  rewrite !getProductById_outcome, !deleteProduct_outcome, Hc, Hcan.
  destruct (store w !! oid); repeat apply conj; reflexivity.
Qed.

Lemma an_id_and_its_canonical_form_name_the_same_record_witness :
  (respond 200 (Controller.getProductById "6162636465666768696A6B6C")
     world_with_laptop).2
  = (respond 200 (Controller.getProductById (ObjectId.toHexString "abcdefghijkl"))
       world_with_laptop).2.
Proof.
  refine (proj1 (proj2 (proj2 (an_id_and_its_canonical_form_name_the_same_record
            "6162636465666768696A6B6C" "abcdefghijkl" world_with_laptop _)))).
  reflexivity.
Defined.

(* ================================================================== *)
(** ** Environment validation and process start *)
(* ================================================================== *)

Lemma text_uri_accepted (config : gmap string JsValue) (s : string) :
  config !! "MONGODB_URI" = Some (JString s) ->
  validateEnvironmentVariables config = inr config.
Proof.
  intros Hu.
  assert (Hid : plainToInstance EnvironmentVariables_strings true config = config).
  { apply map_eq. intros k. rewrite plainToInstance_lookup.
    cbn [andb]. case_bool_decide as Hk; [|destruct (config !! k); reflexivity].
    apply list_elem_of_singleton in Hk. subst k. rewrite Hu. reflexivity. }
  unfold validateEnvironmentVariables.
  rewrite validateSync_env, Hid. unfold uri_refused. rewrite Hu. reflexivity.
Qed.





Lemma config_lookup (vars : gmap string string) (k : string) :
  (JString <$> vars : gmap string JsValue) !! k = JString <$> vars !! k.
Proof. apply lookup_fmap. Qed.

Lemma main_with_file (others : Handler) (h : Host) (file : gmap string string) :
  files h !! envFile h = Some file ->
  main others h
  = match validateEnvironmentVariables (JString <$> (process_env h ∪ file)) with
    | inl e => ([ExistsSync (envFile h); LoadEnvFile (envFile h)], inl e)
    | inr config =>
        let '(events, app) := bootstrap others config in
        (ExistsSync (envFile h) :: LoadEnvFile (envFile h) :: events, inr app)
    end.
Proof.
  intros Hfile. unfold main. rewrite existsSync_dom.
  rewrite bool_decide_eq_true_2 by (rewrite Hfile; eexists; reflexivity).
  cbn [negb]. unfold ConfigModule_forRoot. rewrite Hfile. reflexivity.
Qed.



(** X20. Process start produces an application only when the environment
    file of the mode exists and the connection URI is defined by the
    process or by the file; the startup events then end with the listen. *)
Theorem startup_succeeds_only_with_file_and_uri
    (others : Handler) (h : Host) events app :
  main others h = (events, inr app) ->
  exists file uri port,
    files h !! envFile h = Some file
    /\ (process_env h ∪ file) !! "MONGODB_URI" = Some uri
    /\ events = [ExistsSync (envFile h); LoadEnvFile (envFile h); Create; Use; Listen port]
    /\ listening app = Some port.
Proof.
  intros Hmain.
  destruct (files h !! envFile h) as [file|] eqn:Hfile.
  - rewrite (main_with_file others h file Hfile) in Hmain.
    destruct ((process_env h ∪ file) !! "MONGODB_URI") as [uri|] eqn:Huri.
    + rewrite (text_uri_accepted _ uri) in Hmain
        by (rewrite config_lookup, Huri; reflexivity).
      unfold bootstrap in Hmain. injection Hmain as <- <-.
      eexists file, uri, _. repeat apply conj; first [reflexivity | assumption].
    + exfalso. unfold validateEnvironmentVariables in Hmain.
      rewrite validateSync_env in Hmain. unfold uri_refused in Hmain.
      rewrite config_lookup, Huri in Hmain. discriminate.
  - exfalso. unfold main in Hmain. rewrite existsSync_dom in Hmain.
    rewrite bool_decide_eq_false_2 in Hmain
      by (rewrite Hfile; intros [? ?]; discriminate).
    discriminate.
Qed.

Lemma startup_succeeds_only_with_file_and_uri_witness :
  exists file uri port,
    files host_dev !! envFile host_dev = Some file
    /\ (process_env host_dev ∪ file) !! "MONGODB_URI" = Some uri
    /\ events_dev
       = [ExistsSync (envFile host_dev); LoadEnvFile (envFile host_dev); Create; Use;
          Listen port]
    /\ listening app_dev = Some port.
Proof.
  exact (startup_succeeds_only_with_file_and_uri
           no_other_controllers host_dev events_dev app_dev main_dev).
Defined.

(* ================================================================== *)
(** ** The gate in front of the products handlers *)
(* ================================================================== *)

Lemma products_routes_handler (others : Handler) (req : Request) :
  products_routes others req
  = match products_handler req with Some handler => handler | None => others req end.
Proof.
  unfold products_routes, products_handler. repeat case_match; reflexivity.
Qed.

Lemma products_handler_cases (req : Request) (handler : Next) :
  products_handler req = Some handler ->
  handler = respond 201 (Controller.createProduct (body req))
  \/ handler = respond 200 Controller.getProducts
  \/ exists id,
       handler = respond 200 (Controller.getProductById id)
       \/ handler = respond 200 (Controller.updateProductById id (body req))
       \/ handler = respond 200 (Controller.deleteProduct id).
Proof.
  unfold products_handler. repeat case_match; intros Hsome;
    first [discriminate Hsome | injection Hsome as <-; eauto 10].
Qed.

Lemma same_data_emit (e1 e2 : Event) (w1 w2 : World) :
  same_data w1 w2 -> same_data (emit e1 w1) (emit e2 w2).
Proof. intros H. exact H. Qed.

Lemma same_data_set_store s (w1 w2 : World) :
  same_data w1 w2 -> same_data (set_store s w1) (set_store s w2).
Proof. intros (_ & He & Hd). repeat split; assumption. Qed.

(** The answer of a products handler and the data it leaves do not depend
    on what was logged before. *)
Lemma products_handler_same_data (req : Request) (handler : Next) (w1 w2 : World) :
  products_handler req = Some handler ->
  same_data w1 w2 ->
  (handler w1).2 = (handler w2).2 /\ same_data (handler w1).1 (handler w2).1.
Proof.
  intros Hh Hsame.
  assert (Hnext : next_oid w1 = next_oid w2).
  { destruct Hsame as (_ & He & Hd). unfold next_oid. rewrite He, Hd. reflexivity. }
  pose proof Hsame as (Hs & He & Hd).
  destruct (products_handler_cases req handler Hh)
    as [-> | [-> | (id & [-> | [-> | ->]])]].
  - rewrite !createProduct_outcome. cbv zeta. rewrite Hnext, Hs.
    destruct (validateSync CreateProductDto (body req)); [|split; [reflexivity | exact Hsame]].
    destruct (store w2 !! next_oid w2); cbn [fst snd]; (split; [reflexivity|]);
      repeat split; cbn [set_store emit drawn_one store entropy drawn]; congruence.
  - rewrite !getProducts_outcome, Hs. split; [reflexivity | exact Hsame].
  - rewrite !getProductById_outcome, Hs.
    destruct (ObjectId.cast id); split; first [reflexivity | exact Hsame].
  - rewrite !updateProductById_outcome, Hs.
    destruct (validateSync UpdateProductDto (body req)), (ObjectId.cast id) as [oid|];
      try destruct (store w2 !! oid);
      split; first [reflexivity | exact Hsame | apply same_data_set_store, Hsame].
  - rewrite !deleteProduct_outcome, Hs.
    destruct (ObjectId.cast id) as [oid|]; try destruct (store w2 !! oid);
      split; first [reflexivity | exact Hsame | apply same_data_set_store, Hsame].
Qed.

(** X21. In a started application, two requests to the same products route
    with the same body that carry different non-empty authorization values
    get the same answer and leave the same collection: the value of the
    token is logged and otherwise not looked at. *)
Theorem any_token_gives_the_same_answer
    (others : Handler) (h : Host) events app
    (req1 req2 : Request) (token1 token2 : string) (handler : Next) (w : World) :
  main others h = (events, inr app) ->
  method req1 = method req2 ->
  originalUrl req1 = originalUrl req2 ->
  body req1 = body req2 ->
  headers req1 !! "authorization" = Some token1 -> token1 <> "" ->
  headers req2 !! "authorization" = Some token2 -> token2 <> "" ->
  products_handler req1 = Some handler ->
  exists w1 w2 answer,
    serve app req1 w = Some (w1, answer)
    /\ serve app req2 w = Some (w2, answer)
    /\ store w1 = store w2.
Proof.
  intros Hmain Hm Hu Hb Ht1 Hne1 Ht2 Hne2 Hh.
  assert (Hh2 : products_handler req2 = Some handler).
  { rewrite <- Hh. unfold products_handler. rewrite Hm, Hu, Hb. reflexivity. }
  rewrite (started_serve _ _ _ _ req1 w Hmain), (started_serve _ _ _ _ req2 w Hmain).
  rewrite (gate_truthy _ _ _ token1 Ht1 Hne1), (gate_truthy _ _ _ token2 Ht2 Hne2).
  rewrite !products_routes_handler, Hh, Hh2.
  destruct (products_handler_same_data req1 handler
              (emit (authenticated token1) (emit (incoming req1) w))
              (emit (authenticated token2) (emit (incoming req2) w)) Hh)
    as [Hans (Hs & _)].
  { repeat split. }
  destruct (handler (emit (authenticated token1) (emit (incoming req1) w)))
    as [w1 a1].
  destruct (handler (emit (authenticated token2) (emit (incoming req2) w)))
    as [w2 a2].
  cbn [fst snd] in Hans, Hs. subst a2.
  exists w1, w2, a1. repeat split. exact Hs.
Qed.

Lemma any_token_gives_the_same_answer_witness :
  exists w1 w2 answer,
    serve app_dev (get_products {[ "authorization" := "Bearer t" ]}) empty_world
    = Some (w1, answer)
    /\ serve app_dev (get_products {[ "authorization" := "anything" ]}) empty_world
       = Some (w2, answer)
    /\ store w1 = store w2.
Proof.
  refine (any_token_gives_the_same_answer no_other_controllers host_dev events_dev
            app_dev (get_products {[ "authorization" := "Bearer t" ]})
            (get_products {[ "authorization" := "anything" ]})
            "Bearer t" "anything" (respond 200 Controller.getProducts) empty_world
            main_dev _ _ _ _ _ _ _ _);
    first [reflexivity | discriminate].
Defined.

(** X22. In a started application, a request to a products route with a
    non-empty token leaves in the trace the logger's line, then the
    authorization line, then at most one persistence call: the collection
    is never touched before both lines are written, and a request the
    handler answers with 400 adds the two lines only. *)
Theorem persistence_comes_after_both_log_lines
    (others : Handler) (h : Host) events app
    (req : Request) (token : string) (handler : Next) (w : World) :
  main others h = (events, inr app) ->
  headers req !! "authorization" = Some token -> token <> "" ->
  products_handler req = Some handler ->
  exists w' answer calls,
    serve app req w = Some (w', answer)
    /\ trace w' = (trace w ++ [incoming req; authenticated token] ++ calls)%list
    /\ (calls = [] \/ exists c, calls = [Persistence c])
    /\ (status answer = 400 -> calls = []).
Proof.
  intros Hmain Ht Hne Hh.
  rewrite (started_serve _ _ _ _ req w Hmain), (gate_truthy _ _ _ token Ht Hne).
  rewrite products_routes_handler, Hh.
  set (w0 := emit (authenticated token) (emit (incoming req) w)).
  assert (Hone : one_call_at_most w0 (handler w0)).
  { destruct (products_handler_cases req handler Hh)
      as [-> | [-> | (id & [-> | [-> | ->]])]].
    - apply (one_call_each "" (body req) w0).
    - apply (one_call_each "" ∅ w0).
    - apply (one_call_each id ∅ w0).
    - apply (one_call_each id (body req) w0).
    - apply (one_call_each id ∅ w0). }
  destruct Hone as (calls & Htrace & Hshape & H400).
  destruct (handler w0) as [w' answer]. cbn [fst snd] in *.
  exists w', answer, calls. split; [reflexivity|].
  split; [|split; assumption].
  rewrite Htrace. subst w0. cbn [emit trace].
  rewrite <- !app_assoc. reflexivity.
Qed.

Lemma persistence_comes_after_both_log_lines_witness :
  exists w' answer calls,
    serve app_dev (get_products {[ "authorization" := "Bearer t" ]}) empty_world
    = Some (w', answer)
    /\ trace w'
       = (trace empty_world
            ++ [incoming (get_products {[ "authorization" := "Bearer t" ]});
                authenticated "Bearer t"] ++ calls)%list
    /\ (calls = [] \/ exists c, calls = [Persistence c])
    /\ (status answer = 400 -> calls = []).
Proof.
  refine (persistence_comes_after_both_log_lines no_other_controllers host_dev
            events_dev app_dev (get_products {[ "authorization" := "Bearer t" ]})
            "Bearer t" (respond 200 Controller.getProducts) empty_world
            main_dev _ _ _);
    first [reflexivity | discriminate].
Defined.

Lemma reported_messages cls (obj : gmap string JsValue) p e n m :
  p ∈ properties cls ->
  validate_property (class_name cls) obj p = Some e ->
  (n, m) ∈ constraints e ->
  m ∈ concat (map (fun e => map snd (constraints e)) (validateSync cls obj)).
Proof.
  intros Hp He Hm. apply list_elem_of_In, in_concat.
  exists (map snd (constraints e)). split.
  - apply list_elem_of_In.
    apply (list_elem_of_fmap_2 (fun e => map snd (constraints e))).
    apply (validateSync_complete cls obj p e Hp He).
  - apply list_elem_of_In.
    apply (list_elem_of_fmap_2 snd _ (n, m)). exact Hm.
Qed.

(** X23. A create request whose name is not text and whose price is not a
    number is answered with one 400 that reports both fields: the messages
    hold "name must be a string" and the message about the price, so the
    validation does not stop at the first field that fails. *)
Theorem refused_create_reports_every_failed_field
    (body : gmap string JsValue) (w : World) :
  is_text (body !! "name") = false ->
  match body !! "price" with Some (JNumber _) => false | _ => true end = true ->
  exists messages,
    respond 201 (Controller.createProduct body) w
    = (w, {| status := 400; json := ValidationErrorBody 400 messages |})
    /\ "name must be a string" ∈ messages
    /\ "price must be a number conforming to the specified constraints" ∈ messages.
Proof.
  intros Hname Hprice.
  assert (Hn : exists e,
            validate_property "CreateProductDto" body ("name", [IsNotEmpty; IsString])
            = Some e
            /\ ("isString", "name must be a string") ∈ constraints e).
  { unfold validate_property. cbn [fst snd].
    destruct (body !! "name") as [[]|]; try discriminate Hname;
      eexists; (split; [reflexivity|]); vm_compute;
      first [apply list_elem_of_here | apply list_elem_of_further, list_elem_of_here]. }
  assert (Hp : exists e,
            validate_property "CreateProductDto" body ("price", [IsNotEmpty; IsNumber])
            = Some e
            /\ ("isNumber", "price must be a number conforming to the specified constraints")
               ∈ constraints e).
  { unfold validate_property. cbn [fst snd].
    destruct (body !! "price") as [[| | | |[|]| |]|]; try discriminate Hprice;
      eexists; (split; [reflexivity|]); vm_compute;
      first [apply list_elem_of_here | apply list_elem_of_further, list_elem_of_here]. }
  destruct Hn as (en & Hen & Hmn), Hp as (ep & Hep & Hmp).
  assert (Hbad : validateSync CreateProductDto body <> []).
  { intros Hnil. apply validateSync_nil in Hnil.
    cbn [properties CreateProductDto class_name] in Hnil.
    apply Forall_cons in Hnil as [Hnone _]. rewrite Hen in Hnone. discriminate. }
  rewrite createProduct_outcome.
  destruct (validateSync CreateProductDto body) as [|e es] eqn:Hv; [contradiction|].
  eexists. split; [reflexivity|]. rewrite <- Hv. split.
  - apply (reported_messages CreateProductDto body
             ("name", [IsNotEmpty; IsString]) en "isString");
      [|exact Hen|exact Hmn].
    cbn [properties CreateProductDto]. apply list_elem_of_here.
  - apply (reported_messages CreateProductDto body
             ("price", [IsNotEmpty; IsNumber]) ep "isNumber");
      [|exact Hep|exact Hmp].
    cbn [properties CreateProductDto].
    apply list_elem_of_further, list_elem_of_further, list_elem_of_here.
Qed.

Lemma refused_create_reports_every_failed_field_witness :
  exists messages,
    respond 201 (Controller.createProduct ∅) empty_world
    = (empty_world, {| status := 400; json := ValidationErrorBody 400 messages |})
    /\ "name must be a string" ∈ messages
    /\ "price must be a number conforming to the specified constraints" ∈ messages.
Proof.
  refine (refused_create_reports_every_failed_field ∅ empty_world _ _); reflexivity.
Defined.
